(** * Control_de_Portfolio.py: [obtener_datos_financieros]

    A shallow embedding of the one function of the script,
    [obtener_datos_financieros], which walks a list of ticker symbols, reads
    the figures the market-data provider publishes for each one, derives a
    fixed set of ratios and appends one dictionary per ticker to [data].

    What is modelled, and how:
    - Numbers.  The script computes with Python [int]s (the [info] bag) and
      numpy [float64]s (the cells of the provider's frames).  Both are
      modelled by [num]: an exact rational ([Qc]) or [NaN].  Rounding,
      underflow, overflow, infinities and the [OverflowError] Python raises
      for an integer quotient too large for a float are abstracted away: the
      theorems speak of the formula that is applied, not of its float
      value.  [NaN] is kept because it is a truthy value in Python and a
      "missing" value in pandas.
    - [None] is [option]'s [None].
    - pandas objects.  A frame indexed by line-item name is a
      [gmap string (list num)] (row label to the cells of that row, most
      recent column first, as yfinance orders them).  A date-indexed series
      is a [list (Z * num)]: the calendar year of the index entry and the
      value, in chronological order.
    - Exceptions.  Every provider access may raise; a computation is a value
      of the monad [M], which threads the lines printed to standard output
      and either returns or raises an [excepcion].  Only subclasses of
      Python's [Exception] are modelled (the ones [except Exception]
      catches).
    - The provider is a function [yf : string -> resultado Stock]; reading
      the same attribute of a [Stock] twice gives the same answer. *)

From Stdlib Require Import QArith Qcanon.
From stdpp Require Import base option list numbers list_numbers strings gmap fin_maps.

#[local] Set Warnings "-clear-no-such-hyp".

Local Open Scope Z_scope.

(** ** Numbers *)

Inductive num : Type :=
  | Fin (q : Qc)
  | NaN.

Global Instance num_eq_dec : EqDecision num.
Proof. solve_decision. Defined.

Definition cero : num := Fin 0%Qc.
Definition dos : num := Fin 2%Qc.

(** [bool(x)]: zero is the only falsy number; [NaN] is truthy. *)
Definition num_bool (x : num) : bool :=
  match x with
  | Fin q => bool_decide (q ≠ 0%Qc)
  | NaN => true
  end.

Definition num_add (x y : num) : num :=
  match x, y with
  | Fin a, Fin b => Fin (a + b)%Qc
  | _, _ => NaN
  end.

Definition num_sub (x y : num) : num :=
  match x, y with
  | Fin a, Fin b => Fin (a - b)%Qc
  | _, _ => NaN
  end.

(** True division.  Every division of the script is reached with a truthy
    divisor, so the value chosen for a zero divisor (numpy's [nan] for
    [0/0]) is never observed. *)
Definition num_div (x y : num) : num :=
  match x, y with
  | Fin a, Fin b => if bool_decide (b = 0%Qc) then NaN else Fin (a / b)%Qc
  | _, _ => NaN
  end.

(** ** Exceptions, results and the output monad *)

Inductive excepcion : Type :=
  | KeyError (clave : string)
  | IndexError (msg : string)
  | TypeError (msg : string)
  | ErrorProveedor (msg : string).

(** [str(e)], as interpolated by the f-strings of the two handlers. *)
Definition str (e : excepcion) : string :=
  match e with
  | KeyError k => "'" +:+ k +:+ "'"
  | IndexError m => m
  | TypeError m => m
  | ErrorProveedor m => m
  end.

Inductive resultado (A : Type) : Type :=
  | Ok (a : A)
  | Raise (e : excepcion).
Global Arguments Ok {A} a.
Global Arguments Raise {A} e.

(** A computation: the lines it printed, and how it ended. *)
Definition M (A : Type) : Type := list string * resultado A.

Definition ret {A} (a : A) : M A := ([], Ok a).

Definition bind {A B} (m : M A) (k : A → M B) : M B :=
  match m with
  | (out, Ok a) => let '(out', r) := k a in (out ++ out', r)
  | (out, Raise e) => (out, Raise e)
  end.

Definition lift {A} (r : resultado A) : M A := ([], r).

Definition print (s : string) : M unit := ([s], Ok tt).

(** [try: m  except Exception as e: h e] *)
Definition try_except {A} (m : M A) (h : excepcion → M A) : M A :=
  match m with
  | (out, Ok a) => (out, Ok a)
  | (out, Raise e) => let '(out', r) := h e in (out ++ out', r)
  end.

Declare Scope py_scope.
Delimit Scope py_scope with py.
Notation "x <~ m ;; k" := (bind m (λ x, k))
  (at level 100, m at next level, right associativity,
   format "x  <~  m  ;;  '//' k") : py_scope.
Local Open Scope py_scope.

(** ** pandas and dict operations used by the script *)

Abbreviation DataFrame := (gmap string (list num)).
Abbreviation Series := (list (Z * num)).
Abbreviation Info := (gmap string num).

(** [df.loc[name, :].values[0] if name in df.index else None]: the most
    recent cell of the named line item.  A row without cells is numpy's
    [IndexError]. *)
Definition primer_valor (df : DataFrame) (name : string) : resultado (option num) :=
  match df !! name with
  | Some fila =>
      match fila with
      | v :: _ => Ok (Some v)
      | [] => Raise (IndexError "index 0 is out of bounds for axis 0 with size 0")
      end
  | None => Ok None
  end.

(** Line 55, on the transposed frame: [dfT.loc[:, name].iloc[0] if name in
    dfT.columns else None].  The same read as [primer_valor], with pandas'
    message for the empty case. *)
Definition primer_iloc (df : DataFrame) (name : string) : resultado (option num) :=
  match df !! name with
  | Some fila =>
      match fila with
      | v :: _ => Ok (Some v)
      | [] => Raise (IndexError "single positional indexer is out-of-bounds")
      end
  | None => Ok None
  end.

(** [info[key]] *)
Definition getitem (info : Info) (key : string) : resultado num :=
  match info !! key with
  | Some v => Ok v
  | None => Raise (KeyError key)
  end.

(** The finite entries of a list of cells: what is left once pandas has
    skipped the missing ones. *)
Definition finitos (l : list num) : list Qc :=
  omap (λ v, match v with Fin q => Some q | NaN => None end) l.

Definition suma (l : list Qc) : Qc := foldr Qcplus 0%Qc l.

(** [s.sum()]: missing entries are skipped, the empty sum is zero. *)
Definition sum_skipna (l : list num) : num := Fin (suma (finitos l)).

(** [s.mean()]: missing entries are skipped, the empty mean is [NaN]. *)
Definition mean_skipna (l : list num) : num :=
  match finitos l with
  | [] => NaN
  | qs => Fin (suma qs / Qc_of_Z (Z.of_nat (length qs)))%Qc
  end.

(** [s.groupby(s.index.year)]: the entries of each calendar year, in order. *)
Definition groupby_year (s : Series) : gmap Z (list num) :=
  foldr (λ '(y, v) g, <[y := v :: default [] (g !! y)]> g) ∅ s.

(** [s.groupby(s.index.year).sum().get(year, 0)] *)
Definition groupby_year_sum_get (s : Series) (year : Z) : num :=
  default cero (sum_skipna <$> groupby_year s !! year).

(** [s.resample('YE').mean()]: one bin per calendar year from the first to
    the last year of the index; a year without entries is a [NaN] bin. *)
Definition indice_year (s : Series) : list Z := s.*1.

Definition resample_YE_mean (s : Series) : list num :=
  match indice_year s with
  | [] => []
  | y :: ys =>
      let y0 := foldr Z.min y ys in
      let y1 := foldr Z.max y ys in
      (λ a, mean_skipna (filter (λ p, p.1 = a) s).*2) <$> seqZ y0 (y1 - y0 + 1)
  end.

(** [frame['Close'].resample('YE').mean()] as line 68 reaches it.  The
    frame the provider returns when it has no row carries a plain index, not
    a [DatetimeIndex], and [resample] refuses it with a [TypeError]; a frame
    with rows is date-indexed. *)
Definition resample_YE (s : Series) : resultado (list num) :=
  match s with
  | [] => Raise (TypeError
      "Only valid with DatetimeIndex, TimedeltaIndex or PeriodIndex, but got an instance of 'Index'")
  | _ :: _ => Ok (resample_YE_mean s)
  end.

(** [s[-n:]] *)
Definition ultimos {A} (n : nat) (l : list A) : list A :=
  drop (length l - n)%nat l.

(** [x / d] for one cell of a float series and a Python scalar. *)
Definition celda_div (d : option num) (x : num) : resultado num :=
  match d with
  | Some e => Ok (num_div x e)
  | None => Raise (TypeError "unsupported operand type(s) for /: 'float' and 'NoneType'")
  end.

(** [s / d]: cell by cell, the first failing cell raises. *)
Fixpoint series_div (s : list num) (d : option num) : resultado (list num) :=
  match s with
  | [] => Ok []
  | x :: s' =>
      match celda_div d x with
      | Ok q =>
          match series_div s' d with
          | Ok qs => Ok (q :: qs)
          | Raise e => Raise e
          end
      | Raise e => Raise e
      end
  end.

(** [bool(x)] for a value that may be [None]. *)
Definition verdadero (x : option num) : bool :=
  match x with
  | Some v => num_bool v
  | None => false
  end.

(** [op(a, b) if a and b else None] *)
Definition guardado (op : num → num → num) (a b : option num) : option num :=
  match a, b with
  | Some x, Some y => if num_bool x && num_bool y then Some (op x y) else None
  | _, _ => None
  end.

(** [(equity.iloc[0] + equity.iloc[1]) / 2 if len(equity) >= 2], else the
    initial [None] is kept. *)
Definition promedio_dos_primeros (equity : list num) : option num :=
  match equity with
  | e0 :: e1 :: _ => Some (num_div (num_add e0 e1) dos)
  | _ => None
  end.

(** [frame['Close'].iloc[0] if not frame.empty else None] *)
Definition primer_cierre (historial : Series) : option num :=
  match historial with
  | [] => None
  | (_, c) :: _ => Some c
  end.

(** ** The provider's object model

    What [yf.Ticker(ticker)] exposes.  [history period interval] is the
    [Close] column of [stock.history(period=..., interval=...)], oldest row
    first; the script calls it with [period='1d'] (default daily interval)
    and with [period='10y', interval='1mo'].  An exception raised while an
    attribute is fetched, or while the frame it returns is indexed by the
    expression that reads it, is the [Raise] of that attribute. *)

Record Stock : Type := {
  quarterly_balance_sheet : resultado DataFrame;
  dividends : resultado Series;
  history : string → string → resultado Series;
  info : resultado Info;
  quarterly_financials : resultado DataFrame;
}.

(** ** The record appended per ticker

    One field per key of the dictionary, in the order of the source:
    'Ticker', 'Activo Corriente', ..., 'PER', 'PER prom. x10'. *)

Record registro : Type := {
  Ticker : string;
  Activo_Corriente : option num;
  Pasivo_Corriente : option num;
  Deuda_Total : option num;
  Activos_Totales : option num;
  Capital_Contable : option num;
  Dividendos_Anuales : num;
  Precio_de_Cierre : option num;
  Capital_Contable_Promedio : option num;
  Capitalizacion_Bursatil : option num;
  Ventas : option num;
  Utilidad_Neta : option num;
  Razon_Circulante : option num;
  Deudas_a_Activos : option num;
  Deuda_a_Capital : option num;
  Rendimiento_de_Dividendos : option num;
  ROA : option num;
  ROE : option num;
  Precio_a_Ventas : option num;
  Precio_a_Ganancias : option num;
  PER : num;
  PER_prom_x10 : option num;
}.

(** ** The function *)

(** Lines 68-72: the body of the inner [try]. *)
Definition per_promedio_try (stock : Stock) (eps_hist : option num) : M num :=
  cierres <~ lift (history stock "10y" "1mo") ;;
  precio_hist <~ lift (resample_YE cierres) ;;
  per_anual <~ lift (series_div (ultimos 10 precio_hist) eps_hist) ;;
  ret (mean_skipna per_anual).

Definition msg_per_promedio (ticker : string) (e : excepcion) : string :=
  "Error al calcular el PER promedio para " +:+ ticker +:+ ": " +:+ str e.

(** Lines 66-75: the inner [try] with its handler, which sets
    [per_promedio = None] and prints. *)
Definition paso_per_promedio (ticker : string) (stock : Stock)
    (eps_hist : option num) : M (option num) :=
  try_except
    (v <~ per_promedio_try stock eps_hist ;; ret (Some v))
    (λ e, _ <~ print (msg_per_promedio ticker e) ;; ret None).

Definition msg_procesar (ticker : string) (e : excepcion) : string :=
  "Error al procesar " +:+ ticker +:+ ": " +:+ str e.

Section Extractor.

(** [yf.Ticker]: the provider. *)
Variable yf : string → resultado Stock.

(** Lines 19-113: the body of the outer [try], up to the dictionary that
    is appended. *)
Definition cuerpo (ticker : string) : M registro :=
  stock <~ lift (yf ticker) ;;
  balance_sheet <~ lift (quarterly_balance_sheet stock) ;;
  activo_corriente <~ lift (primer_valor balance_sheet "Current Assets") ;;
  pasivo_corriente <~ lift (primer_valor balance_sheet "Current Liabilities") ;;
  deuda_total <~ lift (primer_valor balance_sheet "Total Liabilities Net Minority Interest") ;;
  activos_totales <~ lift (primer_valor balance_sheet "Total Assets") ;;
  let capital_contable := guardado num_sub activos_totales deuda_total in
  dividendos <~ lift (dividends stock) ;;
  let dividendos_anuales := groupby_year_sum_get dividendos 2023 in
  historial <~ lift (history stock "1d" "1d") ;;
  let precio_de_cierre := primer_cierre historial in
  balance_sheet' <~ lift (quarterly_balance_sheet stock) ;;
  let capital_contable_promedio :=
    match balance_sheet' !! "Total Equity Gross Minority Interest" with
    | Some equity => promedio_dos_primeros equity
    | None => None
    end in
  info_1 <~ lift (info stock) ;;
  let capitalizacion_bursatil := info_1 !! "marketCap" in
  info_2 <~ lift (info stock) ;;
  let ventas := info_2 !! "totalRevenue" in
  quarterly_financials <~ lift (quarterly_financials stock) ;;
  utilidad_neta <~ lift (primer_iloc quarterly_financials "Net Income") ;;
  info_3 <~ lift (info stock) ;;
  let shares_outstanding := info_3 !! "sharesOutstanding" in
  let eps_hist := guardado num_div utilidad_neta shares_outstanding in
  per_promedio <~ paso_per_promedio ticker stock eps_hist ;;
  let razon_circulante := guardado num_div activo_corriente pasivo_corriente in
  let deudas_a_activos := guardado num_div deuda_total activos_totales in
  let deuda_a_capital := guardado num_div deuda_total capital_contable in
  let rendimiento_dividendos := guardado num_div (Some dividendos_anuales) precio_de_cierre in
  let roe := guardado num_div utilidad_neta capital_contable_promedio in
  let precio_a_ventas := guardado num_div capitalizacion_bursatil ventas in
  let precio_ganancia := guardado num_div capitalizacion_bursatil utilidad_neta in
  let roa := guardado num_div utilidad_neta activos_totales in
  info_4 <~ lift (info stock) ;;
  per <~ lift (getitem info_4 "trailingPE") ;;
  ret {| Ticker := ticker;
         Activo_Corriente := activo_corriente;
         Pasivo_Corriente := pasivo_corriente;
         Deuda_Total := deuda_total;
         Activos_Totales := activos_totales;
         Capital_Contable := capital_contable;
         Dividendos_Anuales := dividendos_anuales;
         Precio_de_Cierre := precio_de_cierre;
         Capital_Contable_Promedio := capital_contable_promedio;
         Capitalizacion_Bursatil := capitalizacion_bursatil;
         Ventas := ventas;
         Utilidad_Neta := utilidad_neta;
         Razon_Circulante := razon_circulante;
         Deudas_a_Activos := deudas_a_activos;
         Deuda_a_Capital := deuda_a_capital;
         Rendimiento_de_Dividendos := rendimiento_dividendos;
         ROA := roa;
         ROE := roe;
         Precio_a_Ventas := precio_a_ventas;
         Precio_a_Ganancias := precio_ganancia;
         PER := per;
         PER_prom_x10 := per_promedio |}.

(** Lines 17-116: one iteration of the loop, [data] being the list built
    so far. *)
Definition iteracion (data : list registro) (ticker : string) : M (list registro) :=
  try_except
    (r <~ cuerpo ticker ;; ret (data ++ [r]))
    (λ e, _ <~ print (msg_procesar ticker e) ;; ret data).

Fixpoint bucle (tickers : list string) (data : list registro) : M (list registro) :=
  match tickers with
  | [] => ret data
  | ticker :: resto =>
      data' <~ iteracion data ticker ;;
      bucle resto data'
  end.

(** [pd.DataFrame(data)] has one row per dictionary of [data], in order;
    the table is modelled by that list.  (In the frame a numeric column
    shows a null cell and a [NaN] cell alike; the dictionaries keep them
    apart, and the statements are about the dictionaries.) *)
Definition obtener_datos_financieros (tickers : list string) : M (list registro) :=
  data <~ bucle tickers [] ;;
  ret data.

End Extractor.

(** ** The body of the outer [try], in closed form *)

(** The dictionary of lines 90-113 as a function of what was read. *)
Definition registro_de (ticker : string) (bs : DataFrame) (divs h1 : Series)
    (i : Info) (ac pc dt at_ un : option num) (per : num) (pp : option num) : registro :=
  let cc := guardado num_sub at_ dt in
  let da := groupby_year_sum_get divs 2023 in
  let ccp := bs !! "Total Equity Gross Minority Interest" ≫= promedio_dos_primeros in
  {| Ticker := ticker;
     Activo_Corriente := ac;
     Pasivo_Corriente := pc;
     Deuda_Total := dt;
     Activos_Totales := at_;
     Capital_Contable := cc;
     Dividendos_Anuales := da;
     Precio_de_Cierre := primer_cierre h1;
     Capital_Contable_Promedio := ccp;
     Capitalizacion_Bursatil := i !! "marketCap";
     Ventas := i !! "totalRevenue";
     Utilidad_Neta := un;
     Razon_Circulante := guardado num_div ac pc;
     Deudas_a_Activos := guardado num_div dt at_;
     Deuda_a_Capital := guardado num_div dt cc;
     Rendimiento_de_Dividendos := guardado num_div (Some da) (primer_cierre h1);
     ROA := guardado num_div un at_;
     ROE := guardado num_div un ccp;
     Precio_a_Ventas := guardado num_div (i !! "marketCap") (i !! "totalRevenue");
     Precio_a_Ganancias := guardado num_div (i !! "marketCap") un;
     PER := per;
     PER_prom_x10 := pp |}.

(** What a ticker's processing read from the provider when it completed. *)
Record lectura (stock : Stock) (bs : DataFrame) (divs h1 : Series) (i : Info)
    (ac pc dt at_ un : option num) (per : num) : Prop := {
  lee_balance : quarterly_balance_sheet stock = Ok bs;
  lee_dividends : dividends stock = Ok divs;
  lee_history : history stock "1d" "1d" = Ok h1;
  lee_info : info stock = Ok i;
  lee_ac : primer_valor bs "Current Assets" = Ok ac;
  lee_pc : primer_valor bs "Current Liabilities" = Ok pc;
  lee_dt : primer_valor bs "Total Liabilities Net Minority Interest" = Ok dt;
  lee_at : primer_valor bs "Total Assets" = Ok at_;
  lee_un : ∃ fin, quarterly_financials stock = Ok fin ∧ primer_iloc fin "Net Income" = Ok un;
  lee_per : getitem i "trailingPE" = Ok per;
}.

(** ** The eight guarded ratios, as the specification lists them

    Each ratio names the field that holds it, its numerator input and its
    denominator input. *)

Inductive ratio : Type :=
  | current_ratio
  | debt_to_assets
  | debt_to_equity
  | dividend_yield
  | return_on_assets
  | return_on_equity
  | price_to_sales
  | price_to_earnings.

Definition valor (k : ratio) (r : registro) : option num :=
  match k with
  | current_ratio => Razon_Circulante r
  | debt_to_assets => Deudas_a_Activos r
  | debt_to_equity => Deuda_a_Capital r
  | dividend_yield => Rendimiento_de_Dividendos r
  | return_on_assets => ROA r
  | return_on_equity => ROE r
  | price_to_sales => Precio_a_Ventas r
  | price_to_earnings => Precio_a_Ganancias r
  end.

Definition numerador (k : ratio) (r : registro) : option num :=
  match k with
  | current_ratio => Activo_Corriente r
  | debt_to_assets => Deuda_Total r
  | debt_to_equity => Deuda_Total r
  | dividend_yield => Some (Dividendos_Anuales r)
  | return_on_assets => Utilidad_Neta r
  | return_on_equity => Utilidad_Neta r
  | price_to_sales => Capitalizacion_Bursatil r
  | price_to_earnings => Capitalizacion_Bursatil r
  end.

Definition denominador (k : ratio) (r : registro) : option num :=
  match k with
  | current_ratio => Pasivo_Corriente r
  | debt_to_assets => Activos_Totales r
  | debt_to_equity => Capital_Contable r
  | dividend_yield => Precio_de_Cierre r
  | return_on_assets => Activos_Totales r
  | return_on_equity => Capital_Contable_Promedio r
  | price_to_sales => Ventas r
  | price_to_earnings => Utilidad_Neta r
  end.

(** ** Vocabulary of the statements *)

(** The arithmetic mean of a non-empty list of rationals. *)
Definition media_aritmetica (l : list Qc) : Qc :=
  (suma l / Qc_of_Z (Z.of_nat (length l)))%Qc.

(** The values of the entries of a series that fall in a given year. *)
Definition eventos_del_year (year : Z) (s : Series) : list num :=
  (filter (λ p, p.1 = year) s).*2.

(** The most recent row of a frame's column (rows are oldest first). *)
Definition cierre_mas_reciente (historial : Series) : option num :=
  snd <$> last historial.

(** "Presence, not the values themselves, decides whether the subtraction
    is performed": the computed equity as a function of presence alone. *)
Definition resta_si_presentes (a d : option num) : option num :=
  match a, d with
  | Some (Fin x), Some (Fin y) => Some (Fin (x - y)%Qc)
  | Some _, Some _ => Some NaN
  | _, _ => None
  end.

Definition equity_decided_by_presence : Prop :=
  ∀ (yf : string → resultado Stock) ticker out r,
    cuerpo yf ticker = (out, Ok r) →
    Capital_Contable r = resta_si_presentes (Activos_Totales r) (Deuda_Total r).

(** "The closing-price field equals the most recent closing price of the
    returned one-day price history whenever that history is non-empty, and
    is null when the history is empty." *)
Definition closing_price_is_most_recent : Prop :=
  ∀ (yf : string → resultado Stock) ticker out r stock h,
    cuerpo yf ticker = (out, Ok r) →
    yf ticker = Ok stock →
    history stock "1d" "1d" = Ok h →
    Precio_de_Cierre r = cierre_mas_reciente h.




(** The row a ticker contributes to the table, if any, and the lines its
    iteration prints. *)
Definition fila (yf : string → resultado Stock) (ticker : string) : option registro :=
  match cuerpo yf ticker with
  | (_, Ok r) => Some r
  | (_, Raise _) => None
  end.

Definition salida (yf : string → resultado Stock) (ticker : string) : list string :=
  match cuerpo yf ticker with
  | (out, Ok _) => out
  | (out, Raise e) => out ++ [msg_procesar ticker e]
  end.

(** A number as a plain fraction, for reading results. *)
Definition a_Q (x : num) : option Q :=
  match x with
  | Fin q => Some (this q)
  | NaN => None
  end.

(** ** A small market, for evaluation *)

Definition entero (n : Z) : num := Fin (Qc_of_Z n).

Definition balance_AAA : list (string * list num) :=
  [("Current Assets", [entero 300; entero 280]);
   ("Current Liabilities", [entero 150; entero 140]);
   ("Total Liabilities Net Minority Interest", [entero 400; entero 390]);
   ("Total Assets", [entero 1000; entero 950]);
   ("Total Equity Gross Minority Interest", [entero 600; entero 560])].

Definition info_AAA : list (string * num) :=
  [("marketCap", entero 5000); ("totalRevenue", entero 2500);
   ("sharesOutstanding", entero 100); ("trailingPE", entero 25)].

Definition history_AAA (period interval : string) : resultado Series :=
  if decide (period = "1d") then Ok [(2026, entero 50)]
  else Ok [(2024, entero 40); (2024, entero 60); (2025, entero 50); (2026, entero 70)].

Definition dividends_AAA : Series :=
  [(2022, entero 1); (2023, entero 2); (2023, entero 3); (2024, entero 4)].

Definition mk_stock (bs : list (string * list num)) (i : list (string * num))
    (fin : list (string * list num)) : Stock :=
  {| quarterly_balance_sheet := Ok (list_to_map bs);
     dividends := Ok dividends_AAA;
     history := history_AAA;
     info := Ok (list_to_map i);
     quarterly_financials := Ok (list_to_map fin) |}.

(** Complete data. *)
Definition stock_AAA : Stock :=
  mk_stock balance_AAA info_AAA [("Net Income", [entero 200; entero 180])].

(** No 'trailingPE' in the info bag. *)
Definition stock_NPE : Stock :=
  mk_stock balance_AAA (take 3 info_AAA) [("Net Income", [entero 200; entero 180])].

(** Total liabilities reported as zero. *)
Definition stock_ZER : Stock :=
  mk_stock
    [("Current Assets", [entero 300]); ("Current Liabilities", [cero]);
     ("Total Liabilities Net Minority Interest", [cero]);
     ("Total Assets", [entero 1000]);
     ("Total Equity Gross Minority Interest", [entero 1000; entero 900])]
    info_AAA [("Net Income", [entero 200])].

(** A single quarter of equity. *)
Definition stock_ONE : Stock :=
  mk_stock
    [("Current Assets", [entero 300]); ("Current Liabilities", [entero 150]);
     ("Total Liabilities Net Minority Interest", [entero 400]);
     ("Total Assets", [entero 1000]);
     ("Total Equity Gross Minority Interest", [entero 600])]
    info_AAA [("Net Income", [entero 200])].

(** No 'Net Income' line: no EPS. *)
Definition stock_NOE : Stock := mk_stock balance_AAA info_AAA [].

Definition mercado (ticker : string) : resultado Stock :=
  if decide (ticker = "AAA") then Ok stock_AAA
  else if decide (ticker = "NPE") then Ok stock_NPE
  else if decide (ticker = "ZER") then Ok stock_ZER
  else if decide (ticker = "ONE") then Ok stock_ONE
  else if decide (ticker = "NOE") then Ok stock_NOE
  else Raise (ErrorProveedor "No data found, symbol may be delisted").

(** ** The table and the script (lines 119-127)

    A cell of the table is the ticker's text or a number that may be null.
    [dict_de] is the dictionary literal of lines 90-113, keys in source
    order; [registro] is its typed form. *)

Inductive celda : Type :=
  | Texto (s : string)
  | Numero (x : option num).

Definition dict_de (r : registro) : list (string * celda) :=
  [("Ticker", Texto (Ticker r));
   ("Activo Corriente", Numero (Activo_Corriente r));
   ("Pasivo Corriente", Numero (Pasivo_Corriente r));
   ("Deuda Total", Numero (Deuda_Total r));
   ("Activos Totales", Numero (Activos_Totales r));
   ("Capital Contable", Numero (Capital_Contable r));
   ("Dividendos Anuales", Numero (Some (Dividendos_Anuales r)));
   ("Precio de Cierre", Numero (Precio_de_Cierre r));
   ("Capital Contable Promedio", Numero (Capital_Contable_Promedio r));
   ("Capitalización Bursátil", Numero (Capitalizacion_Bursatil r));
   ("Ventas", Numero (Ventas r));
   ("Utilidad Neta", Numero (Utilidad_Neta r));
   ("Razón Circulante", Numero (Razon_Circulante r));
   ("Deudas a Activos", Numero (Deudas_a_Activos r));
   ("Deuda a Capital", Numero (Deuda_a_Capital r));
   ("Rendimiento de Dividendos", Numero (Rendimiento_de_Dividendos r));
   ("ROA", Numero (ROA r));
   ("ROE", Numero (ROE r));
   ("Precio a Ventas", Numero (Precio_a_Ventas r));
   ("Precio a Ganancias", Numero (Precio_a_Ganancias r));
   ("PER", Numero (Some (PER r)));
   ("PER prom. x10", Numero (PER_prom_x10 r))].

(** [d[clave]] for a present key. *)
Fixpoint valor_de (clave : string) (d : list (string * celda)) : option celda :=
  match d with
  | [] => None
  | (k, v) :: d' => if decide (k = clave) then Some v else valor_de clave d'
  end.

(** [df.columns] of [pd.DataFrame(data)]: the keys of the dictionaries, in
    order of first appearance; a frame built from no dictionary has no
    column. *)
Definition columns (df : list registro) : list string :=
  remove_dups (df ≫= λ r, (dict_de r).*1).

(** [df[[c1, ..., cn]]]: the frame restricted to the listed columns, a
    [KeyError] when one of them is not a column (the text of the message is
    the library's). *)
Definition getitem_columns (df : list registro) (cols : list string)
    : resultado (list (list celda)) :=
  if decide (Forall (λ c, c ∈ columns df) cols)
  then Ok ((λ r, omap (λ c, valor_de c (dict_de r)) cols) <$> df)
  else Raise (KeyError "not in index").

(** What the script writes to standard output: a line of text, or a frame
    (its column labels and its rows). *)
Inductive evento : Type :=
  | Linea (s : string)
  | Tabla (cols : list string) (filas : list (list celda)).

(** Line 123. *)
Definition tickers : list string := ["GOOGL"; "AMD"; "GLOB"; "MELI"].

(** The column labels of line 127. *)
Definition columnas_mostradas : list string :=
  ["Ticker"; "Razón Circulante"; "Deudas a Activos"; "Deuda a Capital";
   "Rendimiento de Dividendos"; "ROA"; "ROE"; "Precio a Ventas";
   "Precio a Ganancias"; "Precio de Cierre"; "PER"; "PER prom. x10"].

(** Lines 123-127: the module-level statements.  An exception here is not
    caught by anything. *)
Definition script (yf : string → resultado Stock) : list evento * resultado unit :=
  match obtener_datos_financieros yf tickers with
  | (out, Ok datos_financieros) =>
      match getitem_columns datos_financieros columnas_mostradas with
      | Ok t => ((Linea <$> out) ++ [Tabla columnas_mostradas t], Ok tt)
      | Raise e => (Linea <$> out, Raise e)
      end
  | (out, Raise e) => (Linea <$> out, Raise e)
  end.

(** The four line items read with [.values[0]] from the balance sheet. *)
Definition lineas_balance : list string :=
  ["Current Assets"; "Current Liabilities";
   "Total Liabilities Net Minority Interest"; "Total Assets"].

(** The cells shown for one record, in the order of line 127. *)
Definition fila_mostrada (r : registro) : list celda :=
  [Texto (Ticker r); Numero (Razon_Circulante r); Numero (Deudas_a_Activos r);
   Numero (Deuda_a_Capital r); Numero (Rendimiento_de_Dividendos r);
   Numero (ROA r); Numero (ROE r); Numero (Precio_a_Ventas r);
   Numero (Precio_a_Ganancias r); Numero (Precio_de_Cierre r);
   Numero (Some (PER r)); Numero (PER_prom_x10 r)].

(** More of the small market: the script's tickers, one of them listed. *)
Definition mercado_script (ticker : string) : resultado Stock :=
  if decide (ticker = "AMD") then Ok stock_AAA
  else Raise (ErrorProveedor "No data found, symbol may be delisted").

Definition mercado_vacio (ticker : string) : resultado Stock :=
  Raise (ErrorProveedor "No data found, symbol may be delisted").

(** A stock whose total assets cell is missing ([NaN]). *)
Definition stock_NAN : Stock :=
  mk_stock
    [("Current Assets", [entero 300]); ("Current Liabilities", [entero 150]);
     ("Total Liabilities Net Minority Interest", [entero 400]);
     ("Total Assets", [NaN]);
     ("Total Equity Gross Minority Interest", [entero 600; entero 560])]
    info_AAA [("Net Income", [entero 200])].

(** A stock whose liabilities equal its assets, and which paid nothing in
    2023. *)
Definition stock_EQ : Stock :=
  {| quarterly_balance_sheet := Ok (list_to_map
       [("Total Liabilities Net Minority Interest", [entero 400]);
        ("Total Assets", [entero 400])]);
     dividends := Ok [(2022, entero 1); (2024, entero 4)];
     history := history_AAA;
     info := Ok (list_to_map info_AAA);
     quarterly_financials := Ok (list_to_map [("Net Income", [entero 200])]) |}.

(** A stock with no 'trailingPE' and no 'Net Income' line. *)
Definition stock_NN : Stock := mk_stock balance_AAA (take 3 info_AAA) [].

Definition mercado_extra (ticker : string) : resultado Stock :=
  if decide (ticker = "NAN") then Ok stock_NAN
  else if decide (ticker = "EQ") then Ok stock_EQ
  else if decide (ticker = "NN") then Ok stock_NN
  else mercado ticker.

(** Twelve calendar years of closes, none in 2020, two in 2026; and a
    one-day history of two rows. *)
Definition cierres_TEN : list (Z * Qc) :=
  [(2015, Qc_of_Z 10); (2016, Qc_of_Z 20); (2017, Qc_of_Z 30); (2018, Qc_of_Z 40);
   (2019, Qc_of_Z 50); (2021, Qc_of_Z 70); (2022, Qc_of_Z 80); (2023, Qc_of_Z 90);
   (2024, Qc_of_Z 100); (2025, Qc_of_Z 110); (2026, Qc_of_Z 100); (2026, Qc_of_Z 140)].

Definition stock_TEN : Stock :=
  {| quarterly_balance_sheet := Ok (list_to_map balance_AAA);
     dividends := Ok dividends_AAA;
     history := λ period interval,
       if decide (period = "1d") then Ok [(2026, entero 40); (2026, entero 50)]
       else Ok ((λ p, (p.1, Fin p.2)) <$> cierres_TEN);
     info := Ok (list_to_map info_AAA);
     quarterly_financials := Ok (list_to_map [("Net Income", [entero 200; entero 180])]) |}.

Definition mercado_TEN (ticker : string) : resultado Stock :=
  if decide (ticker = "TEN") then Ok stock_TEN else mercado_extra ticker.

(** * Proofs *)

(** ** The monad *)

Lemma bind_lift_Ok {A B} (a : A) (k : A → M B) : bind (lift (Ok a)) k = k a.
Proof. unfold bind, lift. by destruct (k a). Qed.

Lemma bind_lift_Raise {A B} (e : excepcion) (k : A → M B) :
  bind (lift (Raise e)) k = ([], Raise e).
Proof. done. Qed.

Lemma bind_Ok_inv {A B} (m : M A) (k : A → M B) out b :
  bind m k = (out, Ok b) →
  ∃ o1 a o2, m = (o1, Ok a) ∧ k a = (o2, Ok b) ∧ out = o1 ++ o2.
Proof.
  destruct m as [o1 [a|e]]; simpl; [|discriminate].
  destruct (k a) as [o2 r] eqn:Hk. intros [= <- ->]. by exists o1, a, o2.
Qed.

Lemma bind_lift_Ok_inv {A B} (r : resultado A) (k : A → M B) out b :
  bind (lift r) k = (out, Ok b) → ∃ a, r = Ok a ∧ k a = (out, Ok b).
Proof.
  destruct r as [a|e]; [rewrite bind_lift_Ok|rewrite bind_lift_Raise]; [eauto|discriminate].
Qed.

Lemma bind_ret_r {A} (m : M A) : bind m ret = m.
Proof. destruct m as [o [a|e]]; simpl; [by rewrite app_nil_r|done]. Qed.

(** ** Truthiness and the guard *)

Lemma num_bool_true x : num_bool x = true ↔ x ≠ cero.
Proof.
  destruct x as [q|]; simpl; [|by split].
  rewrite bool_decide_eq_true. unfold cero. split; [congruence|].
  intros H ->. by apply H.
Qed.

Lemma num_bool_false x : num_bool x = false ↔ x = cero.
Proof.
  rewrite <-not_true_iff_false, num_bool_true.
  destruct (decide (x = cero)); naive_solver.
Qed.

Lemma verdadero_false x : verdadero x = false ↔ x = None ∨ x = Some cero.
Proof.
  destruct x as [v|]; simpl; [rewrite num_bool_false|]; naive_solver.
Qed.

Lemma guardado_Some op a b x y :
  a = Some x → b = Some y → x ≠ cero → y ≠ cero →
  guardado op a b = Some (op x y).
Proof.
  intros -> -> Hx%num_bool_true Hy%num_bool_true. simpl. by rewrite Hx, Hy.
Qed.

Lemma guardado_None op a b :
  verdadero a = false ∨ verdadero b = false → guardado op a b = None.
Proof.
  destruct a as [x|], b as [y|]; simpl; try done.
  intros [->| ->]; [done|]. by rewrite andb_false_r.
Qed.

(** ** Reading a line item *)

Lemma primer_valor_Ok_inv (df : DataFrame) name v :
  primer_valor df name = Ok v → v = df !! name ≫= head ∧ df !! name ≠ Some [].
Proof.
  unfold primer_valor. destruct (df !! name) as [[|x fila]|]; simpl.
  - done.
  - by intros [= <-].
  - by intros [= <-].
Qed.

Lemma primer_iloc_Ok_inv (df : DataFrame) name v :
  primer_iloc df name = Ok v → v = df !! name ≫= head ∧ df !! name ≠ Some [].
Proof.
  unfold primer_iloc. destruct (df !! name) as [[|x fila]|]; simpl.
  - done.
  - by intros [= <-].
  - by intros [= <-].
Qed.

(** ** The inner step *)

Lemma per_promedio_try_out stock eps o r :
  per_promedio_try stock eps = (o, r) → o = [].
Proof.
  unfold per_promedio_try.
  destruct (history stock "10y" "1mo") as [h|e];
    [rewrite bind_lift_Ok|rewrite bind_lift_Raise; congruence].
  destruct (resample_YE h) as [precio_hist|e];
    [rewrite bind_lift_Ok|rewrite bind_lift_Raise; congruence].
  destruct (series_div _ eps) as [s|e];
    [rewrite bind_lift_Ok|rewrite bind_lift_Raise]; unfold ret; congruence.
Qed.

Lemma paso_per_promedio_Ok ticker stock eps v :
  per_promedio_try stock eps = ([], Ok v) →
  paso_per_promedio ticker stock eps = ([], Ok (Some v)).
Proof. unfold paso_per_promedio. by intros ->. Qed.

Lemma paso_per_promedio_Raise ticker stock eps e :
  per_promedio_try stock eps = ([], Raise e) →
  paso_per_promedio ticker stock eps = ([msg_per_promedio ticker e], Ok None).
Proof. unfold paso_per_promedio. by intros ->. Qed.


Section ExtractorProofs.

Variable yf : string → resultado Stock.

Ltac leer H :=
  repeat match type of H with
  | context [bind (lift ?r) _] =>
      let E := fresh "E" in
      destruct r eqn:E;
      [rewrite bind_lift_Ok in H; cbv zeta in H
      |rewrite bind_lift_Raise in H; discriminate H]
  end.

Lemma cuerpo_Ok_inv ticker out r :
  cuerpo yf ticker = (out, Ok r) →
  ∃ stock bs divs h1 i ac pc dt at_ un per pp,
    yf ticker = Ok stock ∧
    lectura stock bs divs h1 i ac pc dt at_ un per ∧
    paso_per_promedio ticker stock
      (guardado num_div un (i !! "sharesOutstanding")) = (out, Ok pp) ∧
    r = registro_de ticker bs divs h1 i ac pc dt at_ un per pp.
Proof.
  unfold cuerpo. intros H. leer H.
  apply bind_Ok_inv in H as (o1 & pp & o2 & Hpp & H & ->).
  leer H. unfold ret in H. injection H as <- <-.
  rewrite app_nil_r. simplify_eq.
  eexists _, _, _, _, _, _, _, _, _, _, _, _.
  split; [done|]. split; [split; eauto|]. split; [done|].
  unfold registro_de. f_equal; by destruct (_ !! "Total Equity Gross Minority Interest").
Qed.

Lemma cuerpo_Ok_intro ticker stock bs divs h1 i ac pc dt at_ un per out pp :
  yf ticker = Ok stock →
  lectura stock bs divs h1 i ac pc dt at_ un per →
  paso_per_promedio ticker stock
    (guardado num_div un (i !! "sharesOutstanding")) = (out, Ok pp) →
  cuerpo yf ticker = (out, Ok (registro_de ticker bs divs h1 i ac pc dt at_ un per pp)).
Proof.
  intros Hyf [Hbs Hdiv Hh Hi Hac Hpc Hdt Hat (fin & Hfin & Hun) Hper] Hpp.
  unfold cuerpo.
  rewrite Hyf, bind_lift_Ok, Hbs, bind_lift_Ok, Hac, bind_lift_Ok, Hpc, bind_lift_Ok,
    Hdt, bind_lift_Ok, Hat, bind_lift_Ok, Hdiv, bind_lift_Ok, Hh, bind_lift_Ok.
  cbv zeta. rewrite bind_lift_Ok, Hi, !bind_lift_Ok, Hfin, bind_lift_Ok, Hun, !bind_lift_Ok.
  cbv zeta. rewrite Hpp. simpl. rewrite Hper. simpl. rewrite app_nil_r.
  unfold registro_de.
  by destruct (_ !! "Total Equity Gross Minority Interest").
Qed.

(** Every guarded ratio of a produced record is the guard applied to its
    two inputs. *)
Lemma valor_guardado ticker out r k :
  cuerpo yf ticker = (out, Ok r) →
  valor k r = guardado num_div (numerador k r) (denominador k r).
Proof.
  intros (stock & bs & divs & h1 & i & ac & pc & dt & at_ & un & per & pp
          & _ & _ & _ & ->)%cuerpo_Ok_inv.
  by destruct k.
Qed.

Lemma Qcdiv_no_cero (a b : Qc) : a ≠ 0%Qc → b ≠ 0%Qc → (a / b)%Qc ≠ 0%Qc.
Proof.
  intros Ha Hb H. unfold Qcdiv in H.
  apply Qcmult_integral in H as [H|H]; [done|].
  pose proof (Qcmult_inv_r b Hb) as H1. rewrite H, Qcmult_0_r in H1. done.
Qed.

Lemma Fin_no_cero (q : Qc) : Fin q ≠ cero ↔ q ≠ 0%Qc.
Proof. unfold cero. split; [intros H ->; by apply H|congruence]. Qed.

Lemma num_div_Fin p q : Fin q ≠ cero → num_div (Fin p) (Fin q) = Fin (p / q)%Qc.
Proof.
  intros H. unfold num_div. rewrite bool_decide_eq_false_2; [done|].
  intros ->. by apply H.
Qed.

Lemma fmap_num_div_Fin (e : Qc) (ps : list Qc) :
  e ≠ 0%Qc →
  (λ p, num_div p (Fin e)) <$> (Fin <$> ps) = Fin <$> ((λ p, p / e)%Qc <$> ps).
Proof.
  intros He. induction ps as [|p ps IH]; [done|].
  rewrite !fmap_cons, IH, num_div_Fin; [done|by apply Fin_no_cero].
Qed.

(** C1.  In every produced record, each of the eight guarded ratios whose
    numerator and denominator inputs are both present and nonzero equals
    the quotient numerator / denominator; for finite inputs [p] and [q]
    that is the rational [p / q]. *)
Theorem guarded_ratio_is_quotient ticker out r k a b :
  cuerpo yf ticker = (out, Ok r) →
  numerador k r = Some a →
  denominador k r = Some b →
  a ≠ cero → b ≠ cero →
  valor k r = Some (num_div a b) ∧
  (∀ p q, a = Fin p → b = Fin q → valor k r = Some (Fin (p / q)%Qc)).
Proof.
  intros H Ha Hb Ha0 Hb0.
  rewrite (valor_guardado _ _ _ k H), (guardado_Some _ _ _ a b) by done.
  split; [done|]. intros p q -> ->. by rewrite num_div_Fin.
Qed.

(** C2.  In every produced record, a guarded ratio whose numerator or
    denominator input is absent ([None]) or zero is [None]: the field is
    there (it is a field of the record) and holds neither a number nor an
    error. *)
Theorem guarded_ratio_null_when_input_missing ticker out r k :
  cuerpo yf ticker = (out, Ok r) →
  numerador k r = None ∨ numerador k r = Some cero ∨
    denominador k r = None ∨ denominador k r = Some cero →
  valor k r = None.
Proof.
  intros H Hin. rewrite (valor_guardado _ _ _ k H).
  apply guardado_None. rewrite !verdadero_false. tauto.
Qed.

Lemma dos_no_cero : dos ≠ cero.
Proof. by apply num_bool_true. Qed.

Lemma promedio_dos_primeros_Fin p q resto :
  promedio_dos_primeros (Fin p :: Fin q :: resto) = Some (Fin ((p + q) / 2)%Qc).
Proof.
  unfold promedio_dos_primeros, num_add, dos.
  rewrite num_div_Fin; [done|apply dos_no_cero].
Qed.

Lemma promedio_dos_primeros_is_Some equity :
  is_Some (promedio_dos_primeros equity) ↔ (2 ≤ length equity)%nat.
Proof.
  destruct equity as [|e0 [|e1 resto]]; simpl;
    (split; [try by intros [? [=]]|try lia]); [lia|eauto].
Qed.

(** The average-equity field of a produced record, from the balance sheet
    the provider returned. *)
Lemma promedio_leido ticker out r stock bs :
  cuerpo yf ticker = (out, Ok r) →
  yf ticker = Ok stock →
  quarterly_balance_sheet stock = Ok bs →
  Capital_Contable_Promedio r =
    bs !! "Total Equity Gross Minority Interest" ≫= promedio_dos_primeros.
Proof.
  intros (stock' & bs' & divs & h1 & i & ac & pc & dt & at_ & un & per & pp
          & Hyf & [Hbs _ _ _ _ _ _ _ _ _] & _ & ->)%cuerpo_Ok_inv Hyf' Hbs'.
  simpl. congruence.
Qed.

(** C7.  The average-equity field holds a value exactly when the balance
    sheet has the equity row with at least two quarterly cells, and then
    it is (first + second) / 2; with no row, or fewer than two cells, it
    is [None]. *)
Theorem average_equity_two_quarters ticker out r stock bs :
  cuerpo yf ticker = (out, Ok r) →
  yf ticker = Ok stock →
  quarterly_balance_sheet stock = Ok bs →
  (is_Some (Capital_Contable_Promedio r) ↔
     ∃ equity, bs !! "Total Equity Gross Minority Interest" = Some equity
               ∧ (2 ≤ length equity)%nat) ∧
  (∀ e0 e1 resto,
     bs !! "Total Equity Gross Minority Interest" = Some (e0 :: e1 :: resto) →
     Capital_Contable_Promedio r = Some (num_div (num_add e0 e1) dos)) ∧
  (∀ p q resto,
     bs !! "Total Equity Gross Minority Interest" = Some (Fin p :: Fin q :: resto) →
     Capital_Contable_Promedio r = Some (Fin ((p + q) / 2)%Qc)).
Proof.
  intros H Hyf Hbs. rewrite (promedio_leido _ _ _ _ _ H Hyf Hbs).
  split; [|split].
  - destruct (bs !! "Total Equity Gross Minority Interest") as [equity|]; simpl.
    + rewrite promedio_dos_primeros_is_Some. naive_solver.
    + split; [by intros [? [=]]|]. by intros (eq & [=] & _).
  - by intros e0 e1 resto ->.
  - intros p q resto ->. apply promedio_dos_primeros_Fin.
Qed.

(** C8, as amended.  The computed-equity field is total assets minus total
    liabilities when both are present and nonzero (for finite figures [a]
    and [d], the rational [a - d]), and [None] when either is absent or
    zero. *)
Theorem computed_equity_needs_truthy_operands ticker out r :
  cuerpo yf ticker = (out, Ok r) →
  (∀ a d : Qc,
     Activos_Totales r = Some (Fin a) → Deuda_Total r = Some (Fin d) →
     a ≠ 0%Qc → d ≠ 0%Qc →
     Capital_Contable r = Some (Fin (a - d)%Qc)) ∧
  (∀ a d, Activos_Totales r = Some a → Deuda_Total r = Some d →
          a ≠ cero → d ≠ cero → a = NaN ∨ d = NaN →
          Capital_Contable r = Some NaN) ∧
  (Activos_Totales r = None ∨ Activos_Totales r = Some cero ∨
     Deuda_Total r = None ∨ Deuda_Total r = Some cero →
   Capital_Contable r = None).
Proof.
  intros (stock & bs & divs & h1 & i & ac & pc & dt & at_ & un & per & pp
          & _ & _ & _ & ->)%cuerpo_Ok_inv.
  unfold registro_de. cbn [Activos_Totales Deuda_Total Capital_Contable].
  split; [|split].
  - intros a d -> -> Ha Hd.
    by rewrite (guardado_Some _ _ _ (Fin a) (Fin d)) by (by try apply Fin_no_cero).
  - intros a d -> -> Ha Hd Hnan.
    rewrite (guardado_Some _ _ _ a d) by done.
    f_equal. destruct Hnan as [-> | ->]; [done|by destruct a].
  - intros Hin. apply guardado_None. rewrite !verdadero_false. tauto.
Qed.

(** C9, as amended.  The closing-price field is the close of the first
    row of the frame the one-day request returns (its oldest row), and
    [None] when the frame is empty; when the frame has exactly one row that
    is the most recent close. *)
Theorem closing_price_is_first_row ticker out r stock h :
  cuerpo yf ticker = (out, Ok r) →
  yf ticker = Ok stock →
  history stock "1d" "1d" = Ok h →
  Precio_de_Cierre r = snd <$> head h ∧
  (h = [] → Precio_de_Cierre r = None) ∧
  (∀ fila, h = [fila] → Precio_de_Cierre r = snd <$> last h).
Proof.
  intros (stock' & bs & divs & h1 & i & ac & pc & dt & at_ & un & per & pp
          & Hyf & [_ _ Hh _ _ _ _ _ _ _] & _ & ->)%cuerpo_Ok_inv Hyf' Hh'.
  assert (stock' = stock) as -> by congruence.
  assert (h1 = h) as -> by congruence.
  unfold registro_de. cbn [Precio_de_Cierre].
  split; [by destruct h as [|[y c] h]|]. split.
  - by intros ->.
  - by intros [y c] ->.
Qed.

(** C10.  The ROE field is net income over the two-quarter average equity
    (under the guard), whatever the computed equity is: for finite net
    income [u] and the two most recent equity cells [p] and [q], with [u]
    and [p + q] nonzero, it is [u / ((p + q) / 2)]; with no equity row, or
    fewer than two quarterly cells in it, ROE is [None]. *)
Theorem roe_uses_average_equity ticker out r stock bs :
  cuerpo yf ticker = (out, Ok r) →
  yf ticker = Ok stock →
  quarterly_balance_sheet stock = Ok bs →
  ROE r = guardado num_div (Utilidad_Neta r) (Capital_Contable_Promedio r) ∧
  (∀ (u p q : Qc) resto,
     Utilidad_Neta r = Some (Fin u) →
     bs !! "Total Equity Gross Minority Interest" = Some (Fin p :: Fin q :: resto) →
     u ≠ 0%Qc → (p + q)%Qc ≠ 0%Qc →
     ROE r = Some (Fin (u / ((p + q) / 2))%Qc)) ∧
  ((∀ equity, bs !! "Total Equity Gross Minority Interest" = Some equity →
              (length equity < 2)%nat) →
   ROE r = None).
Proof.
  intros H Hyf Hbs.
  change (ROE r) with (valor return_on_equity r).
  rewrite (valor_guardado _ _ _ return_on_equity H).
  cbn [numerador denominador].
  rewrite (promedio_leido _ _ _ _ _ H Hyf Hbs).
  split; [done|]. split.
  - intros u p q resto -> -> Hu Hpq.
    cbn [mbind option_bind]. rewrite promedio_dos_primeros_Fin.
    assert ((p + q) / 2 ≠ 0)%Qc as Hm.
    { apply Qcdiv_no_cero; [done|]. apply Fin_no_cero, dos_no_cero. }
    rewrite (guardado_Some _ _ _ (Fin u) (Fin ((p + q) / 2)%Qc))
      by (by try apply Fin_no_cero).
    by rewrite num_div_Fin by (by apply Fin_no_cero).
  - intros Hfew. apply guardado_None. right.
    destruct (bs !! "Total Equity Gross Minority Interest") as [equity|] eqn:Heq;
      simpl; [|done].
    specialize (Hfew _ eq_refl).
    destruct (promedio_dos_primeros equity) as [v|] eqn:Hv; [|done].
    assert (2 ≤ length equity)%nat by (apply promedio_dos_primeros_is_Some; eauto).
    lia.
Qed.

(** ** Dividends of the target year *)

Lemma groupby_year_lookup (s : Series) (y : Z) :
  groupby_year s !! y =
    match eventos_del_year y s with
    | [] => None
    | l => Some l
    end.
Proof.
  unfold eventos_del_year. induction s as [|[y' v] s IH]; [done|].
  change (groupby_year ((y', v) :: s))
    with (<[y' := v :: default [] (groupby_year s !! y')]> (groupby_year s)).
  destruct (decide (y' = y)) as [->|Hne].
  - rewrite lookup_insert_eq, IH, filter_cons_True, fmap_cons by done.
    by destruct ((filter _ s).*2).
  - by rewrite lookup_insert_ne, filter_cons_False.
Qed.

Lemma groupby_year_sum_get_eventos (s : Series) (y : Z) :
  groupby_year_sum_get s y = sum_skipna (eventos_del_year y s).
Proof.
  unfold groupby_year_sum_get. rewrite groupby_year_lookup.
  by destruct (eventos_del_year y s).
Qed.

Lemma finitos_Fin (l : list Qc) : finitos (Fin <$> l) = l.
Proof.
  induction l as [|q l IH]; [done|].
  change (finitos (Fin <$> q :: l)) with (q :: finitos (Fin <$> l)).
  by rewrite IH.
Qed.

Lemma eventos_del_year_Fin (a : Z) (cs : list (Z * Qc)) :
  eventos_del_year a ((λ p, (p.1, Fin p.2)) <$> cs) =
    Fin <$> (filter (λ p, p.1 = a) cs).*2.
Proof.
  unfold eventos_del_year. induction cs as [|[y q] cs IH]; [done|].
  rewrite fmap_cons. destruct (decide (y = a)) as [Hy|Hy].
  - rewrite !filter_cons_True by done. rewrite !fmap_cons, IH. done.
  - rewrite !filter_cons_False by done. done.
Qed.

(** C6.  The annual-dividends field is the sum of the dividend events
    dated in 2023 and of no others: for finite amounts, the sum (a fold of
    rational addition from zero) of the amounts whose year is 2023.  With no
    event in 2023 it is the number zero (the field's type has no [None]). *)
Theorem annual_dividends_sum_of_2023 ticker out r stock divs :
  cuerpo yf ticker = (out, Ok r) →
  yf ticker = Ok stock →
  dividends stock = Ok divs →
  Dividendos_Anuales r = sum_skipna (eventos_del_year 2023 divs) ∧
  (filter (λ p, p.1 = 2023) divs = [] → Dividendos_Anuales r = Fin 0%Qc) ∧
  (∀ ds : list (Z * Qc),
     divs = (λ p, (p.1, Fin p.2)) <$> ds →
     Dividendos_Anuales r =
       Fin (foldr Qcplus 0%Qc (filter (λ p, p.1 = 2023) ds).*2)).
Proof.
  intros (stock' & bs & divs' & h1 & i & ac & pc & dt & at_ & un & per & pp
          & Hyf & [_ Hd _ _ _ _ _ _ _ _] & _ & ->)%cuerpo_Ok_inv Hyf' Hd'.
  assert (stock' = stock) as -> by congruence.
  assert (divs' = divs) as -> by congruence.
  unfold registro_de. cbn [Dividendos_Anuales].
  rewrite groupby_year_sum_get_eventos.
  split; [done|]. split.
  - unfold eventos_del_year. by intros ->.
  - intros ds ->. rewrite eventos_del_year_Fin.
    unfold sum_skipna. by rewrite finitos_Fin.
Qed.

(** ** The loop *)

Lemma iteracion_eq data ticker :
  iteracion yf data ticker =
    (salida yf ticker, Ok (data ++ option_list (fila yf ticker))).
Proof.
  unfold iteracion, salida, fila.
  destruct (cuerpo yf ticker) as [o [r|e]]; simpl.
  - by rewrite app_nil_r.
  - by rewrite app_nil_r.
Qed.

Lemma bucle_eq tickers data :
  bucle yf tickers data =
    (mjoin (salida yf <$> tickers), Ok (data ++ omap (fila yf) tickers)).
Proof.
  revert data. induction tickers as [|t ts IH]; intros data; simpl.
  - by rewrite app_nil_r.
  - rewrite iteracion_eq. simpl. rewrite IH.
    f_equal. f_equal. rewrite <-app_assoc. f_equal.
    by destruct (fila yf t).
Qed.

Lemma fila_None_sin_trailingPE ticker stock i :
  yf ticker = Ok stock → info stock = Ok i → i !! "trailingPE" = None →
  fila yf ticker = None.
Proof.
  intros Hyf Hi Hpe. unfold fila.
  destruct (cuerpo yf ticker) as [o [r|e]] eqn:H; [|done].
  apply cuerpo_Ok_inv in H
    as (stock' & bs & divs & h1 & i' & ac & pc & dt & at_ & un & per & pp
        & Hyf' & [_ _ _ Hi' _ _ _ _ _ Hper] & _).
  assert (stock' = stock) as -> by congruence.
  assert (i' = i) as -> by congruence.
  unfold getitem in Hper. by rewrite Hpe in Hper.
Qed.

Lemma tabla_eq tickers :
  (obtener_datos_financieros yf tickers).2 = Ok (omap (fila yf) tickers).
Proof. unfold obtener_datos_financieros. by rewrite bind_ret_r, bucle_eq. Qed.

(** C3.  The table holds exactly the records of the tickers whose
    processing completed, in input order: a ticker whose processing raised
    (a missing 'trailingPE' key included) contributes no row, every row is
    the complete record of one input ticker, and the table is the one
    obtained without the failing ticker in the input. *)
Theorem table_is_rows_of_completed_tickers tickers :
  obtener_datos_financieros yf tickers =
    (mjoin (salida yf <$> tickers), Ok (omap (fila yf) tickers)) ∧
  (∀ ticker, fila yf ticker = None ↔ ∃ o e, cuerpo yf ticker = (o, Raise e)) ∧
  (∀ ticker r, fila yf ticker = Some r ↔ ∃ o, cuerpo yf ticker = (o, Ok r)) ∧
  (∀ ticker stock i,
     yf ticker = Ok stock → info stock = Ok i → i !! "trailingPE" = None →
     fila yf ticker = None) ∧
  (∀ antes ticker despues o e,
     tickers = antes ++ ticker :: despues →
     cuerpo yf ticker = (o, Raise e) →
     (obtener_datos_financieros yf tickers).2 =
     (obtener_datos_financieros yf (antes ++ despues)).2) ∧
  (∀ r, r ∈ omap (fila yf) tickers →
        ∃ ticker o, ticker ∈ tickers ∧ cuerpo yf ticker = (o, Ok r)).
Proof.
  assert (∀ t r, fila yf t = Some r ↔ ∃ o, cuerpo yf t = (o, Ok r)) as Hfila.
  { intros t r. unfold fila. destruct (cuerpo yf t) as [o [r'|e]].
    - split; [intros [= ->]; eauto|by intros (? & [= _ ->])].
    - split; [done|]. by intros (? & [=]). }
  split; [|split; [|split; [|split; [|split]]]].
  - unfold obtener_datos_financieros. by rewrite bind_ret_r, bucle_eq.
  - intros t. unfold fila. destruct (cuerpo yf t) as [o [r|e]].
    + split; [done|]. by intros (? & ? & [=]).
    + split; [eauto|done].
  - done.
  - apply fila_None_sin_trailingPE.
  - intros antes t despues o e -> Ht.
    rewrite !tabla_eq, !omap_app. simpl. unfold fila at 2. by rewrite Ht.
  - intros r (t & Ht & Hr)%list_elem_of_omap.
    apply Hfila in Hr as (o & Hr). eauto.
Qed.

(** ** The ten-year average P/E *)

Lemma series_div_Some (s : list num) (e : num) :
  series_div s (Some e) = Ok ((λ p, num_div p e) <$> s).
Proof. induction s as [|x s IH]; simpl; [done|]. by rewrite IH. Qed.

Lemma series_div_None (s : list num) :
  series_div s None =
    match s with
    | [] => Ok []
    | _ :: _ => Raise (TypeError "unsupported operand type(s) for /: 'float' and 'NoneType'")
    end.
Proof. by destruct s. Qed.

Lemma per_promedio_try_Ok_inv stock eps o v :
  per_promedio_try stock eps = (o, Ok v) →
  ∃ cierres per_anual,
    history stock "10y" "1mo" = Ok cierres ∧
    cierres ≠ [] ∧
    series_div (ultimos 10 (resample_YE_mean cierres)) eps = Ok per_anual ∧
    v = mean_skipna per_anual.
Proof.
  unfold per_promedio_try.
  intros (cierres & Hh & H)%bind_lift_Ok_inv.
  apply bind_lift_Ok_inv in H as (precio_hist & Hre & H).
  apply bind_lift_Ok_inv in H as (per_anual & Hdiv & [= _ <-]).
  exists cierres, per_anual.
  destruct cierres as [|c cierres]; [done|].
  injection Hre as <-. done.
Qed.

Lemma paso_per_promedio_Some_inv ticker stock eps o v :
  paso_per_promedio ticker stock eps = (o, Ok (Some v)) →
  per_promedio_try stock eps = ([], Ok v).
Proof.
  unfold paso_per_promedio.
  destruct (per_promedio_try stock eps) as [o' [v'|e]] eqn:H;
    pose proof (per_promedio_try_out _ _ _ _ H) as ->; simpl; congruence.
Qed.

Lemma mean_skipna_Fin (l : list Qc) :
  l ≠ [] → mean_skipna (Fin <$> l) = Fin (media_aritmetica l).
Proof.
  intros Hl. unfold mean_skipna. rewrite finitos_Fin. by destruct l.
Qed.

Lemma foldr_min_le (y : Z) (ys : list Z) : foldr Z.min y ys ≤ y.
Proof. induction ys as [|z ys IH]; simpl; lia. Qed.

Lemma foldr_max_ge (y : Z) (ys : list Z) : y ≤ foldr Z.max y ys.
Proof. induction ys as [|z ys IH]; simpl; lia. Qed.

Lemma resample_YE_mean_nil (s : Series) : resample_YE_mean s = [] ↔ s = [].
Proof.
  split; [|by intros ->].
  destruct s as [|[y v] s]; [done|].
  unfold resample_YE_mean, indice_year. rewrite fmap_cons. cbn [fst].
  intros H%fmap_nil_inv.
  apply (f_equal length) in H. rewrite length_seqZ in H. simpl length in H.
  pose proof (foldr_min_le y s.*1). pose proof (foldr_max_ge y s.*1). lia.
Qed.

Lemma ultimos_nil {A} (n : nat) (l : list A) : (0 < n)%nat → ultimos n l = [] ↔ l = [].
Proof.
  intros Hn. split; [|by intros ->].
  unfold ultimos. intros H. apply (f_equal length) in H.
  rewrite length_drop in H. simpl in H.
  destruct l; [done|]. simpl in H. lia.
Qed.

Lemma foldr_min_elem (y : Z) (ys : list Z) : foldr Z.min y ys ∈ y :: ys.
Proof.
  induction ys as [|z ys IH]; simpl; [set_solver|].
  destruct (Z.min_spec z (foldr Z.min y ys)) as [[_ ->]|[_ ->]]; set_solver.
Qed.

Lemma foldr_max_elem (y : Z) (ys : list Z) : foldr Z.max y ys ∈ y :: ys.
Proof.
  induction ys as [|z ys IH]; simpl; [set_solver|].
  destruct (Z.max_spec z (foldr Z.max y ys)) as [[_ ->]|[_ ->]]; set_solver.
Qed.

Lemma foldr_min_lower (y : Z) (ys : list Z) z : z ∈ y :: ys → foldr Z.min y ys ≤ z.
Proof.
  induction ys as [|x ys IH]; simpl.
  - intros ->%list_elem_of_singleton. lia.
  - intros [->|[->|Hz]%elem_of_cons]%elem_of_cons; [|lia|].
    + pose proof (IH ltac:(set_solver)). lia.
    + pose proof (IH ltac:(set_solver)). lia.
Qed.

Lemma foldr_max_upper (y : Z) (ys : list Z) z : z ∈ y :: ys → z ≤ foldr Z.max y ys.
Proof.
  induction ys as [|x ys IH]; simpl.
  - intros ->%list_elem_of_singleton. lia.
  - intros [->|[->|Hz]%elem_of_cons]%elem_of_cons; [|lia|].
    + pose proof (IH ltac:(set_solver)). lia.
    + pose proof (IH ltac:(set_solver)). lia.
Qed.

Lemma drop_seqZ (k : nat) (m n : Z) :
  drop k (seqZ m n) = seqZ (m + Z.of_nat k) (n - Z.of_nat k).
Proof.
  apply list_eq. intros i. rewrite lookup_drop.
  destruct (decide (Z.of_nat (k + i) < n)) as [Hlt|Hge].
  - rewrite !lookup_seqZ_lt by lia. f_equal. lia.
  - rewrite !lookup_seqZ_ge by lia. done.
Qed.

Lemma ultimos_fmap {A B} (f : A → B) (n : nat) (l : list A) :
  ultimos n (f <$> l) = f <$> ultimos n l.
Proof. unfold ultimos. by rewrite length_fmap, fmap_drop. Qed.

Lemma ultimos_resample_years (s : Series) (y0 y1 : Z) :
  y0 ∈ s.*1 → y1 ∈ s.*1 →
  (∀ y, y ∈ s.*1 → y0 ≤ y ≤ y1) →
  ultimos 10 (resample_YE_mean s) =
    (λ a, mean_skipna (eventos_del_year a s))
      <$> seqZ (Z.max y0 (y1 - 9)) (Z.min 10 (y1 - y0 + 1)).
Proof.
  intros H0 H1 Hb. unfold resample_YE_mean, indice_year.
  destruct (s.*1) as [|y ys] eqn:Hs; [by apply elem_of_nil in H0|].
  assert (foldr Z.min y ys = y0) as ->.
  { pose proof (foldr_min_lower y ys y0 H0).
    pose proof (Hb _ (foldr_min_elem y ys)). lia. }
  assert (foldr Z.max y ys = y1) as ->.
  { pose proof (foldr_max_upper y ys y1 H1).
    pose proof (Hb _ (foldr_max_elem y ys)). lia. }
  cbv zeta. rewrite ultimos_fmap. unfold eventos_del_year. f_equal.
  unfold ultimos. rewrite drop_seqZ, length_seqZ.
  pose proof (Hb _ H0). f_equal; lia.
Qed.

Lemma fmap_Fin_years (cs : list (Z * Qc)) :
  ((λ p, (p.1, Fin p.2)) <$> cs).*1 = cs.*1.
Proof. induction cs as [|[y q] cs IH]; [done|]. rewrite !fmap_cons, IH. done. Qed.

Lemma finitos_cons_Fin (q : Qc) (l : list num) : finitos (Fin q :: l) = q :: finitos l.
Proof. done. Qed.

Lemma finitos_cons_NaN (l : list num) : finitos (NaN :: l) = finitos l.
Proof. done. Qed.

Lemma mean_skipna_Fin_cases (l : list Qc) :
  mean_skipna (Fin <$> l) =
    match l with
    | [] => NaN
    | _ :: _ => Fin (foldr Qcplus 0 l / Qc_of_Z (Z.of_nat (length l)))%Qc
    end.
Proof. unfold mean_skipna. rewrite finitos_Fin. by destruct l. Qed.

(** The finite yearly ratios: one for each year that has closes. *)
Lemma finitos_ratios (e : Qc) (closes : Z → list Qc) (W : list Z) :
  e ≠ 0%Qc →
  finitos ((λ p, num_div p (Fin e)) <$> ((λ a, mean_skipna (Fin <$> closes a)) <$> W)) =
    (λ a, (foldr Qcplus 0 (closes a) / Qc_of_Z (Z.of_nat (length (closes a)))) / e)%Qc
      <$> filter (λ a, closes a ≠ []) W.
Proof.
  intros He. induction W as [|a W IH]; [done|].
  rewrite !fmap_cons, mean_skipna_Fin_cases.
  destruct (closes a) as [|c l] eqn:Hc.
  - rewrite filter_cons_False by (rewrite Hc; naive_solver).
    change (num_div NaN (Fin e)) with NaN. by rewrite finitos_cons_NaN.
  - rewrite filter_cons_True by (by rewrite Hc).
    rewrite num_div_Fin by (by apply Fin_no_cero).
    rewrite finitos_cons_Fin, fmap_cons, IH, Hc. done.
Qed.

Lemma mean_skipna_finitos (l : list num) :
  finitos l ≠ [] →
  mean_skipna l =
    Fin (foldr Qcplus 0 (finitos l) / Qc_of_Z (Z.of_nat (length (finitos l))))%Qc.
Proof. unfold mean_skipna. by destruct (finitos l). Qed.

Lemma mean_of_last_ten_finite (cs : list (Z * Qc)) (u s : Qc) (y0 y1 : Z) :
  u ≠ 0%Qc → s ≠ 0%Qc →
  y0 ∈ cs.*1 → y1 ∈ cs.*1 →
  (∀ y, y ∈ cs.*1 → y0 ≤ y ≤ y1) →
  let closes := λ a : Z, (filter (λ p, p.1 = a) cs).*2 in
  let media := λ l : list Qc,
    (foldr Qcplus 0 l / Qc_of_Z (Z.of_nat (length l)))%Qc in
  let years := filter (λ a, closes a ≠ [])
                 (seqZ (Z.max y0 (y1 - 9)) (Z.min 10 (y1 - y0 + 1))) in
  mean_skipna ((λ p, num_div p (num_div (Fin u) (Fin s)))
                 <$> ultimos 10 (resample_YE_mean ((λ p, (p.1, Fin p.2)) <$> cs))) =
    Fin (media ((λ a, media (closes a) / (u / s))%Qc <$> years)).
Proof.
  intros Hu Hs H0 H1 Hb closes media years.
  rewrite (ultimos_resample_years _ y0 y1) by (by rewrite fmap_Fin_years).
  rewrite num_div_Fin by (by apply Fin_no_cero).
  rewrite (list_fmap_ext _ (λ a, mean_skipna (Fin <$> closes a)))
    by (intros ? a _; apply f_equal, eventos_del_year_Fin).
  pose proof (finitos_ratios (u / s) closes
                (seqZ (Z.max y0 (y1 - 9)) (Z.min 10 (y1 - y0 + 1)))
                (Qcdiv_no_cero _ _ Hu Hs)) as Hfin.
  rewrite mean_skipna_finitos; rewrite Hfin; [done|].
  assert (y1 ∈ years) as Hin.
  { apply list_elem_of_filter. split.
    - apply list_elem_of_fmap in H1 as (p & -> & Hp).
      unfold closes. intros Hnil.
      assert (p ∈ filter (λ p0 : Z * Qc, p0.1 = p.1) cs) as Hpf
        by (by apply list_elem_of_filter).
      apply (list_elem_of_fmap_2 snd) in Hpf. rewrite Hnil in Hpf.
      by apply elem_of_nil in Hpf.
    - apply elem_of_seqZ. pose proof (Hb _ H0). lia. }
  fold years. intros Hnil%fmap_nil_inv. rewrite Hnil in Hin.
  by apply elem_of_nil in Hin.
Qed.

(** C4.  When the ten-year step of a produced record succeeded with value
    [v], the ten-year monthly request returned a non-empty series, net
    income and shares outstanding are both present and nonzero, and [v] is
    the mean of the last ten yearly means of the series, each divided by the
    one EPS = net income / shares outstanding.  For finite figures, with
    [y0] and [y1] the first and last calendar year of the series: [v] is the
    arithmetic mean (sum over count), over the calendar years from
    [max y0 (y1 - 9)] to [y1] that have closes, of the arithmetic mean of
    that year's closes divided by [u / s]. *)
Theorem ten_year_average_pe ticker out r stock i v :
  cuerpo yf ticker = (out, Ok r) →
  yf ticker = Ok stock →
  info stock = Ok i →
  PER_prom_x10 r = Some v →
  ∃ cierres un sh fin,
    history stock "10y" "1mo" = Ok cierres ∧
    cierres ≠ [] ∧
    quarterly_financials stock = Ok fin ∧
    fin !! "Net Income" ≫= head = Some un ∧
    Utilidad_Neta r = Some un ∧
    i !! "sharesOutstanding" = Some sh ∧
    un ≠ cero ∧ sh ≠ cero ∧
    v = mean_skipna ((λ p, num_div p (num_div un sh))
                       <$> ultimos 10 (resample_YE_mean cierres)) ∧
    (∀ (cs : list (Z * Qc)) (u s : Qc) (y0 y1 : Z),
       cierres = (λ p, (p.1, Fin p.2)) <$> cs →
       un = Fin u → sh = Fin s →
       y0 ∈ cs.*1 → y1 ∈ cs.*1 →
       (∀ y, y ∈ cs.*1 → y0 ≤ y ≤ y1) →
       let closes := λ a : Z, (filter (λ p, p.1 = a) cs).*2 in
       let media := λ l : list Qc,
         (foldr Qcplus 0 l / Qc_of_Z (Z.of_nat (length l)))%Qc in
       let years := filter (λ a, closes a ≠ [])
                      (seqZ (Z.max y0 (y1 - 9)) (Z.min 10 (y1 - y0 + 1))) in
       v = Fin (media ((λ a, media (closes a) / (u / s))%Qc <$> years))).
Proof.
  intros (stock' & bs & divs & h1 & i' & ac & pc & dt & at_ & un & per & pp
          & Hyf & [_ _ _ Hi _ _ _ _ (fin & Hfin & Hun) _] & Hpp & ->)%cuerpo_Ok_inv
         Hyf' Hi'.
  assert (stock' = stock) as -> by congruence.
  assert (i' = i) as -> by congruence.
  unfold registro_de. cbn [PER_prom_x10 Utilidad_Neta]. intros ->.
  apply paso_per_promedio_Some_inv, per_promedio_try_Ok_inv in Hpp
    as (cierres & per_anual & Hh & Hne & Hdiv & ->).
  apply primer_iloc_Ok_inv in Hun as [Hun _].
  destruct (guardado num_div un (i !! "sharesOutstanding")) as [eps|] eqn:Heps.
  - rewrite series_div_Some in Hdiv. injection Hdiv as <-.
    unfold guardado in Heps.
    destruct un as [u|]; [|done].
    destruct (i !! "sharesOutstanding") as [sh|]; [|done].
    destruct (num_bool u) eqn:Hu; [|done].
    destruct (num_bool sh) eqn:Hsh; [|done].
    simpl in Heps. injection Heps as <-.
    apply num_bool_true in Hu, Hsh.
    exists cierres, u, sh, fin. repeat (split; [done|]).
    intros cs u' s' y0 y1 -> -> -> H0 H1 Hb.
    apply Fin_no_cero in Hu, Hsh.
    by apply mean_of_last_ten_finite.
  - rewrite series_div_None in Hdiv.
    destruct (ultimos 10 (resample_YE_mean cierres)) eqn:Hu; [|done].
    apply ultimos_nil in Hu; [|lia]. by apply resample_YE_mean_nil in Hu.
Qed.

(** ** The ten-year step fails on its own *)




End ExtractorProofs.

(** ** The statements at the small market *)

Ltac evaluar := vm_compute; reflexivity.

Lemma entero_no_cero (n : Z) : n ≠ 0 → entero n ≠ cero.
Proof.
  intros Hn [= H]. by apply Hn.
Qed.

Lemma guarded_ratio_is_quotient_witness :
  ∃ out r,
    cuerpo mercado "AAA" = (out, Ok r) ∧
    valor current_ratio r = Some (num_div (entero 300) (entero 150)).
Proof.
  eexists _, _. split; [evaluar|].
  eapply proj1,
    (guarded_ratio_is_quotient mercado "AAA" _ _ current_ratio (entero 300) (entero 150)).
  - evaluar.
  - reflexivity.
  - reflexivity.
  - apply entero_no_cero. lia.
  - apply entero_no_cero. lia.
Defined.

Lemma guarded_ratio_null_when_input_missing_witness :
  ∃ out r,
    cuerpo mercado "ZER" = (out, Ok r) ∧
    Activo_Corriente r = Some (entero 300) ∧
    valor current_ratio r = None.
Proof.
  eexists _, _. split; [evaluar|]. split; [reflexivity|].
  eapply (guarded_ratio_null_when_input_missing mercado "ZER" _ _ current_ratio).
  - evaluar.
  - right; right; right. reflexivity.
Defined.

Lemma table_is_rows_of_completed_tickers_witness :
  fila mercado "NPE" = None ∧
  ∃ out data,
    obtener_datos_financieros mercado ["AAA"; "NPE"; "BAD"; "ONE"] = (out, Ok data) ∧
    Ticker <$> data = ["AAA"; "ONE"] ∧
    out = ["Error al procesar NPE: 'trailingPE'";
           "Error al procesar BAD: No data found, symbol may be delisted"].
Proof.
  split.
  - eapply (proj1 (proj2 (proj2 (proj2
      (table_is_rows_of_completed_tickers mercado []))))); reflexivity.
  - eexists _, _. split.
    + exact (proj1 (table_is_rows_of_completed_tickers mercado
                      ["AAA"; "NPE"; "BAD"; "ONE"])).
    + split; evaluar.
Defined.

Lemma ten_year_average_pe_witness :
  ∃ out r q,
    cuerpo mercado_TEN "TEN" = (out, Ok r) ∧
    PER_prom_x10 r = Some (Fin q) ∧
    this q = (115 # 3)%Q.
Proof.
  eexists _, _, _. split; [evaluar|]. split; [reflexivity|].
  destruct (ten_year_average_pe mercado_TEN "TEN" _ _ stock_TEN (list_to_map info_AAA) _
              ltac:(evaluar) eq_refl eq_refl eq_refl)
    as (cierres & un & sh & fin & Hh & _ & _ & _ & Hun & Hsh & _ & _ & _ & Hpin).
  change (Ok ((λ p, (p.1, Fin p.2)) <$> cierres_TEN) = Ok cierres) in Hh.
  change (Some (Fin (Qc_of_Z 200)) = Some un) in Hun.
  change (Some (Fin (Qc_of_Z 100)) = Some sh) in Hsh.
  injection Hh as <-. injection Hun as <-. injection Hsh as <-.
  specialize (Hpin cierres_TEN (Qc_of_Z 200) (Qc_of_Z 100) 2015 2026
                eq_refl eq_refl eq_refl).
  assert (2015 ∈ cierres_TEN.*1) as H0
    by (apply list_elem_of_lookup; by exists 0%nat).
  assert (2026 ∈ cierres_TEN.*1) as H1
    by (apply list_elem_of_lookup; by exists 11%nat).
  assert (∀ y, y ∈ cierres_TEN.*1 → 2015 ≤ y ≤ 2026) as Hb.
  { intros y Hy. unfold cierres_TEN in Hy. rewrite !fmap_cons in Hy.
    repeat (apply elem_of_cons in Hy as [->|Hy]; [simpl; lia|]).
    rewrite fmap_nil in Hy. by inversion Hy. }
  assert (Hq := f_equal (λ x, match x with Fin q => this q | NaN => 0%Q end)
                  (Hpin H0 H1 Hb)).
  vm_compute in Hq. exact Hq.
Defined.


Lemma annual_dividends_sum_of_2023_witness :
  ∃ out r q,
    cuerpo mercado "AAA" = (out, Ok r) ∧
    Dividendos_Anuales r = Fin q ∧
    this q = 5%Q.
Proof.
  eexists _, _, _. split; [evaluar|]. split; [reflexivity|].
  destruct (annual_dividends_sum_of_2023 mercado "AAA" _ _ stock_AAA dividends_AAA
              ltac:(evaluar) eq_refl eq_refl) as (_ & _ & Hsum).
  assert (Hq := f_equal (λ x, match x with Fin q => this q | NaN => 0%Q end)
                  (Hsum [(2022, Qc_of_Z 1); (2023, Qc_of_Z 2);
                         (2023, Qc_of_Z 3); (2024, Qc_of_Z 4)] eq_refl)).
  vm_compute in Hq. exact Hq.
Defined.

Lemma average_equity_two_quarters_witness :
  ∃ out r,
    cuerpo mercado "AAA" = (out, Ok r) ∧
    Capital_Contable_Promedio r =
      Some (num_div (num_add (entero 600) (entero 560)) dos).
Proof.
  eexists _, _. split; [evaluar|].
  eapply (proj1 (proj2 (average_equity_two_quarters mercado "AAA" _ _ stock_AAA
                          (list_to_map balance_AAA) ltac:(evaluar) eq_refl eq_refl))).
  evaluar.
Defined.

(** The zero-liabilities stock, evaluated: both figures are present, and no
    equity is computed. *)
Example cuerpo_ZER :
  ∃ out r,
    cuerpo mercado "ZER" = (out, Ok r) ∧
    Activos_Totales r = Some (entero 1000) ∧
    Deuda_Total r = Some cero ∧
    Capital_Contable r = None.
Proof. eexists _, _. split; [evaluar|]. by repeat split. Qed.

(** C8, as stated, fails: for total assets 1000 and total liabilities 0,
    both present, the field is [None], not 1000 - 0. *)
Lemma equity_decided_by_presence_counterexample : ¬ equity_decided_by_presence.
Proof.
  intros H. destruct cuerpo_ZER as (out & r & Hr & Ha & Hd & Hc).
  specialize (H mercado "ZER" out r Hr).
  rewrite Ha, Hd, Hc in H. discriminate H.
Qed.

Lemma computed_equity_needs_truthy_operands_witness :
  ∃ out r q,
    cuerpo mercado "AAA" = (out, Ok r) ∧
    Capital_Contable r = Some (Fin q) ∧
    this q = 600%Q.
Proof.
  eexists _, _, _. split; [evaluar|]. split; [reflexivity|].
  destruct (computed_equity_needs_truthy_operands mercado "AAA" _ _ ltac:(evaluar))
    as (Hminus & _ & _).
  assert (Hq := f_equal
                  (λ x, match x with Some (Fin q) => this q | _ => 0%Q end)
                  (Hminus (Qc_of_Z 1000) (Qc_of_Z 400) eq_refl eq_refl
                     ltac:(by intros [=]) ltac:(by intros [=]))).
  vm_compute in Hq. exact Hq.
Defined.

(** The stock whose one-day frame has two rows, evaluated: the field is the
    first row's close, 40, and the most recent close is 50. *)
Example cuerpo_TEN :
  ∃ out r,
    cuerpo mercado_TEN "TEN" = (out, Ok r) ∧
    history stock_TEN "1d" "1d" = Ok [(2026, entero 40); (2026, entero 50)] ∧
    Precio_de_Cierre r = Some (entero 40) ∧
    cierre_mas_reciente [(2026, entero 40); (2026, entero 50)] = Some (entero 50).
Proof. eexists _, _. split; [evaluar|]. by repeat split. Qed.

(** C9, as stated, fails: for a one-day frame of two rows with closes 40
    and 50 the field is 40, the first row, not the most recent close 50. *)
Lemma closing_price_is_most_recent_counterexample : ¬ closing_price_is_most_recent.
Proof.
  intros H. destruct cuerpo_TEN as (out & r & Hr & Hh & Hp & Hlast).
  specialize (H mercado_TEN "TEN" out r stock_TEN _ Hr eq_refl Hh).
  rewrite Hp, Hlast in H. by injection H.
Qed.

Lemma closing_price_is_first_row_witness :
  ∃ out r,
    cuerpo mercado_TEN "TEN" = (out, Ok r) ∧
    Precio_de_Cierre r = Some (entero 40).
Proof.
  eexists _, _. split; [evaluar|].
  exact (proj1 (closing_price_is_first_row mercado_TEN "TEN" _ _ stock_TEN
                  [(2026, entero 40); (2026, entero 50)]
                  ltac:(evaluar) eq_refl eq_refl)).
Defined.

Lemma roe_uses_average_equity_witness :
  (∃ out r q,
     cuerpo mercado "AAA" = (out, Ok r) ∧
     ROE r = Some (Fin q) ∧
     this q = (10 # 29)%Q) ∧
  (∃ out r,
     cuerpo mercado "ONE" = (out, Ok r) ∧
     Capital_Contable r = Some (num_sub (entero 1000) (entero 400)) ∧
     Utilidad_Neta r = Some (entero 200) ∧
     ROE r = None).
Proof.
  split.
  - eexists _, _, _. split; [evaluar|]. split; [reflexivity|].
    destruct (roe_uses_average_equity mercado "AAA" _ _ stock_AAA
                (list_to_map balance_AAA) ltac:(evaluar) eq_refl eq_refl)
      as (_ & Hroe & _).
    assert (Hq := f_equal
                    (λ x, match x with Some (Fin q) => this q | _ => 0%Q end)
                    (Hroe (Qc_of_Z 200) (Qc_of_Z 600) (Qc_of_Z 560) [] eq_refl
                       ltac:(evaluar) ltac:(by intros [=]) ltac:(by intros [=]))).
    vm_compute in Hq. exact Hq.
  - eexists _, _. split; [evaluar|]. split; [evaluar|]. split; [reflexivity|].
    eapply (proj2 (proj2 (roe_uses_average_equity mercado "ONE" _ _ stock_ONE _
                     ltac:(evaluar) eq_refl eq_refl))).
    intros equity Heq. vm_compute in Heq. injection Heq as <-. simpl. lia.
Defined.

(** ** The pandas operations on small inputs *)

Example resample_YE_mean_gap :
  a_Q <$> resample_YE_mean [(2020, entero 10); (2020, entero 20); (2022, entero 30)]
  = [Some 15%Q; None; Some 30%Q].
Proof. evaluar. Qed.

Example mean_skipna_skips_NaN :
  a_Q (mean_skipna [entero 1; NaN; entero 2]) = Some (3 # 2)%Q.
Proof. evaluar. Qed.

Example resample_YE_empty_frame :
  resample_YE [] = Raise (TypeError
    "Only valid with DatetimeIndex, TimedeltaIndex or PeriodIndex, but got an instance of 'Index'").
Proof. reflexivity. Qed.

Example mean_skipna_empty : mean_skipna [] = NaN.
Proof. reflexivity. Qed.

Example ultimos_10_of_12 :
  ultimos 10 (seqZ 1 12) = seqZ 3 10.
Proof. evaluar. Qed.

Example series_div_None_raises :
  series_div [entero 1] None
  = Raise (TypeError "unsupported operand type(s) for /: 'float' and 'NoneType'").
Proof. reflexivity. Qed.

Example groupby_year_sum_get_no_2023 :
  groupby_year_sum_get [(2022, entero 1); (2024, entero 4)] 2023 = cero.
Proof. reflexivity. Qed.

Example per_promedio_AAA :
  (r ← fila mercado "AAA"; v ← PER_prom_x10 r; a_Q v) = Some (85 # 3)%Q.
Proof. evaluar. Qed.

Example tabla_mixta :
  (obtener_datos_financieros mercado ["BAD"; "AAA"]).1
    = ["Error al procesar BAD: No data found, symbol may be delisted"] ∧
  length (omap (fila mercado) ["BAD"; "AAA"]) = 1%nat.
Proof. split; evaluar. Qed.

(** * More of the function: what is read, when a ticker completes, what is
    printed *)

Section ExtractorExtras.

Variable yf : string → resultado Stock.

(** X1.  The five raw figures of a produced record are the most recent
    cell of their line item, and [None] when the provider's frame has no
    such line. *)
Theorem line_items_are_most_recent_cells ticker out r stock bs fin :
  cuerpo yf ticker = (out, Ok r) →
  yf ticker = Ok stock →
  quarterly_balance_sheet stock = Ok bs →
  quarterly_financials stock = Ok fin →
  Activo_Corriente r = bs !! "Current Assets" ≫= head ∧
  Pasivo_Corriente r = bs !! "Current Liabilities" ≫= head ∧
  Deuda_Total r = bs !! "Total Liabilities Net Minority Interest" ≫= head ∧
  Activos_Totales r = bs !! "Total Assets" ≫= head ∧
  Utilidad_Neta r = fin !! "Net Income" ≫= head.
Proof.
  intros (stock' & bs' & divs & h1 & i & ac & pc & dt & at_ & un & per & pp
          & Hyf & [Hbs _ _ _ Hac Hpc Hdt Hat (fin' & Hfin & Hun) _] & _ & ->)%cuerpo_Ok_inv
         Hyf' Hbs' Hfin'.
  assert (stock' = stock) as -> by congruence.
  assert (bs' = bs) as -> by congruence.
  assert (fin' = fin) as -> by congruence.
  simpl.
  apply primer_valor_Ok_inv in Hac as [-> _], Hpc as [-> _], Hdt as [-> _],
    Hat as [-> _].
  apply primer_iloc_Ok_inv in Hun as [-> _].
  done.
Qed.

(** X2.  In a produced record the market capitalisation and the revenue are
    what [info.get] returns ([None] for a missing key), and the PER field is
    the provider's 'trailingPE', which is therefore present. *)
Theorem info_fields_of_record ticker out r stock i :
  cuerpo yf ticker = (out, Ok r) →
  yf ticker = Ok stock →
  info stock = Ok i →
  Capitalizacion_Bursatil r = i !! "marketCap" ∧
  Ventas r = i !! "totalRevenue" ∧
  i !! "trailingPE" = Some (PER r).
Proof.
  intros (stock' & bs & divs & h1 & i' & ac & pc & dt & at_ & un & per & pp
          & Hyf & [_ _ _ Hi _ _ _ _ _ Hper] & _ & ->)%cuerpo_Ok_inv Hyf' Hi'.
  assert (stock' = stock) as -> by congruence.
  assert (i' = i) as -> by congruence.
  simpl. unfold getitem in Hper.
  destruct (i !! "trailingPE") as [v|]; [|done]. by injection Hper as ->.
Qed.

(** X3.  A ticker that contributes a row had all six reads of the body
    answered (the ticker object, balance sheet, dividends, one-day history,
    info, quarterly financials), none of its five line items read at index
    0 was a row without cells, and its info bag had 'trailingPE'.  So a
    failing read, an empty row of one of those line items or a missing
    'trailingPE' costs the ticker its row. *)
Theorem completed_ticker_was_fully_read ticker :
  is_Some (fila yf ticker) →
  ∃ stock bs divs h1 i fin,
    yf ticker = Ok stock ∧
    quarterly_balance_sheet stock = Ok bs ∧
    dividends stock = Ok divs ∧
    history stock "1d" "1d" = Ok h1 ∧
    info stock = Ok i ∧
    quarterly_financials stock = Ok fin ∧
    (∀ name, name ∈ lineas_balance → bs !! name ≠ Some []) ∧
    fin !! "Net Income" ≠ Some [] ∧
    is_Some (i !! "trailingPE").
Proof.
  unfold fila. destruct (cuerpo yf ticker) as [o [r|e]] eqn:H;
    [intros _|by intros [? [=]]].
  apply cuerpo_Ok_inv in H
    as (stock & bs & divs & h1 & i & ac & pc & dt & at_ & un & per & pp
        & Hyf & [Hbs Hd Hh Hi Hac Hpc Hdt Hat (fin & Hfin & Hun) Hper] & _ & _).
  exists stock, bs, divs, h1, i, fin. repeat (split; [done|]).
  apply primer_valor_Ok_inv in Hac as [_ Hac], Hpc as [_ Hpc], Hdt as [_ Hdt],
    Hat as [_ Hat].
  apply primer_iloc_Ok_inv in Hun as [_ Hun].
  split; [|split; [done|]].
  - intros name Hn. unfold lineas_balance in Hn.
    repeat (apply elem_of_cons in Hn as [->|Hn]; [done|]).
    by inversion Hn.
  - unfold getitem in Hper. by destruct (i !! "trailingPE"); [eauto|].
Qed.

Lemma paso_per_promedio_cases ticker stock eps :
  (∃ v, per_promedio_try stock eps = ([], Ok v) ∧
        paso_per_promedio ticker stock eps = ([], Ok (Some v))) ∨
  (∃ e, per_promedio_try stock eps = ([], Raise e) ∧
        paso_per_promedio ticker stock eps = ([msg_per_promedio ticker e], Ok None)).
Proof.
  destruct (per_promedio_try stock eps) as [o [v|e]] eqn:H;
    pose proof (per_promedio_try_out _ _ _ _ H) as ->.
  - left. exists v. split; [done|]. by apply paso_per_promedio_Ok.
  - right. exists e. split; [done|]. by apply paso_per_promedio_Raise.
Qed.

(** X4.  For a produced record, the ten-year average P/E holds a value
    exactly when the ten-year monthly request was answered with a frame
    that has rows and both net income and shares outstanding are present
    and nonzero.  So the field is null only for a failed request, a frame
    without rows, or a missing (or zero) EPS operand. *)
Theorem ten_year_step_succeeds_iff ticker out r stock i :
  cuerpo yf ticker = (out, Ok r) →
  yf ticker = Ok stock →
  info stock = Ok i →
  (is_Some (PER_prom_x10 r) ↔
   ∃ cierres un sh,
     history stock "10y" "1mo" = Ok cierres ∧ cierres ≠ [] ∧
     Utilidad_Neta r = Some un ∧ i !! "sharesOutstanding" = Some sh ∧
     un ≠ cero ∧ sh ≠ cero).
Proof.
  intros (stock' & bs & divs & h1 & i' & ac & pc & dt & at_ & un & per & pp
          & Hyf & [_ _ _ Hi _ _ _ _ _ _] & Hpp & ->)%cuerpo_Ok_inv Hyf' Hi'.
  assert (stock' = stock) as -> by congruence.
  assert (i' = i) as -> by congruence.
  unfold registro_de. cbn [PER_prom_x10 Utilidad_Neta].
  destruct (paso_per_promedio_cases ticker stock
              (guardado num_div un (i !! "sharesOutstanding")))
    as [(v & Htry & Hp)|(e & Htry & Hp)];
    rewrite Hp in Hpp; injection Hpp as <- <-.
  - split; [intros _|by eauto].
    apply per_promedio_try_Ok_inv in Htry as (cierres & pa & Hh & Hne & Hdiv & _).
    exists cierres.
    destruct (guardado num_div un (i !! "sharesOutstanding")) as [eps|] eqn:Heps.
    + unfold guardado in Heps.
      destruct un as [u|]; [|done].
      destruct (i !! "sharesOutstanding") as [sh|]; [|done].
      destruct (num_bool u) eqn:Hu; [|done].
      destruct (num_bool sh) eqn:Hsh; [|done].
      apply num_bool_true in Hu, Hsh. by exists u, sh.
    + rewrite series_div_None in Hdiv.
      destruct (ultimos 10 (resample_YE_mean cierres)) eqn:Hu; [|done].
      apply ultimos_nil in Hu; [|lia]. by apply resample_YE_mean_nil in Hu.
  - split; [by intros [? [=]]|].
    intros (cierres & u & sh & Hh & Hne & -> & Hsh1 & Hu & Hsh). exfalso.
    unfold per_promedio_try in Htry. rewrite Hh, bind_lift_Ok in Htry.
    destruct cierres as [|c cierres]; [done|].
    change (resample_YE (c :: cierres)) with (Ok (resample_YE_mean (c :: cierres))) in Htry.
    rewrite bind_lift_Ok, Hsh1 in Htry.
    rewrite (guardado_Some _ _ _ u sh), series_div_Some in Htry by done.
    by rewrite bind_lift_Ok in Htry.
Qed.


Lemma cuerpo_out ticker out res :
  cuerpo yf ticker = (out, res) →
  out = [] ∨ ∃ e, out = [msg_per_promedio ticker e].
Proof.
  unfold cuerpo. intros H.
  repeat match type of H with
  | context [bind (lift ?r) _] =>
      destruct r;
      [rewrite bind_lift_Ok in H; cbv zeta in H
      |rewrite bind_lift_Raise in H; injection H as <- <-; by left]
  end.
  match type of H with
  | context [paso_per_promedio ticker ?st ?eps] =>
      destruct (paso_per_promedio_cases ticker st eps)
        as [(v & _ & Hp)|(e & _ & Hp)]; rewrite Hp in H
  end.
  - simpl in H. destruct (getitem _ "trailingPE"); injection H as <- <-; by left.
  - simpl in H. destruct (getitem _ "trailingPE"); injection H as <- <-; eauto.
Qed.

(** X6.  An aborted ticker leaves [data] as it was, and the last line its
    iteration prints is the outer handler's message, with the ticker and
    the text of the exception; before it there is at most the one line of
    the inner handler. *)
Theorem aborted_ticker_is_logged ticker out e data :
  cuerpo yf ticker = (out, Raise e) →
  iteracion yf data ticker = (out ++ [msg_procesar ticker e], Ok data) ∧
  (out = [] ∨ ∃ e', out = [msg_per_promedio ticker e']).
Proof.
  intros H. split; [|by eapply cuerpo_out].
  unfold iteracion. by rewrite H.
Qed.

(** ** How the guards compose *)

Lemma Qcminus_no_cero (a d : Qc) : a ≠ d → (a - d)%Qc ≠ 0%Qc.
Proof.
  intros Hne H. apply Hne.
  rewrite <-(Qcplus_0_l d), <-H. unfold Qcminus.
  by rewrite <-Qcplus_assoc, (Qcplus_comm (- d)), Qcplus_opp_r, Qcplus_0_r.
Qed.

(** X7.  For finite nonzero total assets [a] and total liabilities [d]:
    when they are equal the computed equity is zero and debt-to-equity is
    null (no division by zero is attempted); otherwise the computed equity
    is [a - d] and debt-to-equity is [d / (a - d)]. *)
Theorem debt_to_equity_of_finite_figures ticker out r a d :
  cuerpo yf ticker = (out, Ok r) →
  Activos_Totales r = Some (Fin a) →
  Deuda_Total r = Some (Fin d) →
  a ≠ 0%Qc → d ≠ 0%Qc →
  (a = d → Capital_Contable r = Some cero ∧ Deuda_a_Capital r = None) ∧
  (a ≠ d → Capital_Contable r = Some (Fin (a - d)%Qc) ∧
           Deuda_a_Capital r = Some (Fin (d / (a - d))%Qc)).
Proof.
  intros (stock & bs & divs & h1 & i & ac & pc & dt & at_ & un & per & pp
          & _ & _ & _ & ->)%cuerpo_Ok_inv.
  simpl. intros -> -> Ha Hd.
  rewrite (guardado_Some num_sub _ _ (Fin a) (Fin d)) by by try apply Fin_no_cero.
  change (num_sub (Fin a) (Fin d)) with (Fin (a - d)%Qc). split.
  - intros ->. unfold Qcminus. rewrite Qcplus_opp_r. split; [done|].
    apply guardado_None. by right.
  - intros Hne. split; [done|].
    pose proof (Qcminus_no_cero a d Hne).
    rewrite (guardado_Some num_div _ _ (Fin d) (Fin (a - d)%Qc))
      by by try apply Fin_no_cero.
    by rewrite num_div_Fin by by apply Fin_no_cero.
Qed.

(** X8.  A ticker with no dividend event dated in 2023 has annual
    dividends zero and a null dividend yield: the zero is falsy, so the
    yield is not computed (it is not reported as zero). *)
Theorem no_dividends_no_yield ticker out r stock divs :
  cuerpo yf ticker = (out, Ok r) →
  yf ticker = Ok stock →
  dividends stock = Ok divs →
  eventos_del_year 2023 divs = [] →
  Dividendos_Anuales r = cero ∧ Rendimiento_de_Dividendos r = None.
Proof.
  intros (stock' & bs & divs' & h1 & i & ac & pc & dt & at_ & un & per & pp
          & Hyf & [_ Hd _ _ _ _ _ _ _ _] & _ & ->)%cuerpo_Ok_inv Hyf' Hd' Hev.
  assert (stock' = stock) as -> by congruence.
  assert (divs' = divs) as -> by congruence.
  unfold registro_de. cbn [Dividendos_Anuales Rendimiento_de_Dividendos].
  rewrite groupby_year_sum_get_eventos, Hev.
  split; [done|]. apply guardado_None. left. apply verdadero_false. by right.
Qed.

(** X10.  A cell the provider reports as [NaN] is present and truthy, so it
    passes the guards: the ratio it enters is [NaN], not null, and so is the
    computed equity. *)
Theorem nan_passes_the_guards ticker out r :
  cuerpo yf ticker = (out, Ok r) →
  (∀ k a b,
     numerador k r = Some a → denominador k r = Some b →
     a ≠ cero → b ≠ cero → a = NaN ∨ b = NaN →
     valor k r = Some NaN) ∧
  (∀ a d,
     Activos_Totales r = Some a → Deuda_Total r = Some d →
     a ≠ cero → d ≠ cero → a = NaN ∨ d = NaN →
     Capital_Contable r = Some NaN).
Proof.
  intros H. split.
  - intros k a b Ha Hb Ha0 Hb0 Hnan.
    rewrite (valor_guardado _ _ _ _ k H), (guardado_Some _ _ _ a b) by done.
    f_equal. destruct Hnan as [-> | ->]; [done|by destruct a].
  - apply cuerpo_Ok_inv in H
      as (stock & bs & divs & h1 & i & ac & pc & dt & at_ & un & per & pp
          & _ & _ & _ & ->).
    simpl. intros a d -> -> Ha0 Hd0 Hnan.
    rewrite (guardado_Some _ _ _ a d) by done.
    f_equal. destruct Hnan as [-> | ->]; [done|by destruct a].
Qed.

(** ** The table as a whole *)

Lemma fila_Ticker ticker r : fila yf ticker = Some r → Ticker r = ticker.
Proof.
  unfold fila. destruct (cuerpo yf ticker) as [o [r'|e]] eqn:H; [|done].
  intros [= ->].
  by apply cuerpo_Ok_inv in H
    as (stock & bs & divs & h1 & i & ac & pc & dt & at_ & un & per & pp
        & _ & _ & _ & ->).
Qed.

Lemma obtener_eq (lista : list string) :
  obtener_datos_financieros yf lista =
    (mjoin (salida yf <$> lista), Ok (omap (fila yf) lista)).
Proof. unfold obtener_datos_financieros. by rewrite bind_ret_r, bucle_eq. Qed.

Lemma ticker_column (lista : list string) :
  Ticker <$> omap (fila yf) lista = filter (λ t, is_Some (fila yf t)) lista.
Proof.
  induction lista as [|t lista IH]; [done|].
  change (omap (fila yf) (t :: lista))
    with (match fila yf t with
          | Some r => r :: omap (fila yf) lista
          | None => omap (fila yf) lista
          end).
  destruct (fila yf t) as [r|] eqn:Hr.
  - rewrite filter_cons_True by (by rewrite Hr; eauto).
    rewrite fmap_cons, IH. f_equal. by apply fila_Ticker.
  - rewrite filter_cons_False; [done|]. rewrite Hr. by intros [? [=]].
Qed.

(** X11.  The 'Ticker' column of the returned table is the input list
    with the aborted tickers removed: same order, and a ticker listed twice
    appears twice. *)
Theorem ticker_column_is_filtered_input (lista : list string) :
  ∃ out data,
    obtener_datos_financieros yf lista = (out, Ok data) ∧
    Ticker <$> data = filter (λ t, is_Some (fila yf t)) lista.
Proof.
  eexists _, _. split; [apply obtener_eq|apply ticker_column].
Qed.

(** X12.  Tickers are processed independently: running the function on
    a concatenated list prints the two outputs one after the other and
    returns the two tables one after the other. *)
Theorem batches_compose (l1 l2 : list string) :
  ∃ o1 d1 o2 d2,
    obtener_datos_financieros yf l1 = (o1, Ok d1) ∧
    obtener_datos_financieros yf l2 = (o2, Ok d2) ∧
    obtener_datos_financieros yf (l1 ++ l2) = (o1 ++ o2, Ok (d1 ++ d2)).
Proof.
  eexists _, _, _, _. split; [apply obtener_eq|]. split; [apply obtener_eq|].
  rewrite obtener_eq, fmap_app, omap_app. f_equal.
  by rewrite join_app.
Qed.

(** ** Which years enter the ten-year average *)

(** X13.  The yearly means that enter the ten-year average are those of
    the last ten calendar years ending with the last year of the monthly
    series (all of them when the series spans ten calendar years or fewer),
    one per calendar year, a year without rows included (its mean is
    [NaN]). *)
Theorem last_ten_calendar_years (s : Series) (y0 y1 : Z) :
  y0 ∈ s.*1 → y1 ∈ s.*1 →
  (∀ y, y ∈ s.*1 → y0 ≤ y ≤ y1) →
  ultimos 10 (resample_YE_mean s) =
    (λ a, mean_skipna (eventos_del_year a s))
      <$> seqZ (Z.max y0 (y1 - 9)) (Z.min 10 (y1 - y0 + 1)).
Proof. apply ultimos_resample_years. Qed.

(** ** The script *)

Lemma columnas_mostradas_en_columns r df :
  Forall (λ c, c ∈ columns (r :: df)) columnas_mostradas.
Proof.
  apply Forall_forall. intros c Hc. unfold columns.
  apply elem_of_remove_dups, list_elem_of_bind. exists r. split; [|set_solver].
  unfold columnas_mostradas in Hc. unfold dict_de. rewrite !fmap_cons. simpl.
  set_solver.
Qed.

Lemma fila_mostrada_eq r :
  omap (λ c, valor_de c (dict_de r)) columnas_mostradas = fila_mostrada r.
Proof. reflexivity. Qed.

Lemma getitem_columns_mostradas df :
  getitem_columns df columnas_mostradas =
    match df with
    | [] => Raise (KeyError "not in index")
    | _ :: _ => Ok (fila_mostrada <$> df)
    end.
Proof.
  unfold getitem_columns. destruct df as [|r df].
  - rewrite decide_False; [done|].
    intros H. apply Forall_cons in H as [H _]. by apply elem_of_nil in H.
  - rewrite decide_True by apply columnas_mostradas_en_columns.
    f_equal.
Qed.

(** X14.  The module-level statements end normally, printing the logged
    lines and then the twelve displayed columns with one row per completed
    ticker, exactly when at least one of the four tickers completes.  When
    all four are aborted the table has no column, the column selection of
    line 127 raises a [KeyError] that nothing catches, and only the logged
    lines have been printed. *)
Theorem script_outcome :
  ((∀ t, t ∈ tickers → fila yf t = None) →
   ∃ msg, script yf = (Linea <$> mjoin (salida yf <$> tickers), Raise (KeyError msg))) ∧
  ((∃ t, t ∈ tickers ∧ is_Some (fila yf t)) →
   script yf =
     ((Linea <$> mjoin (salida yf <$> tickers))
        ++ [Tabla columnas_mostradas (fila_mostrada <$> omap (fila yf) tickers)],
      Ok tt)).
Proof.
  unfold script. rewrite obtener_eq, getitem_columns_mostradas. split.
  - intros Hnone. exists "not in index".
    assert (omap (fila yf) tickers = []) as ->; [|done].
    unfold tickers in *. simpl. by rewrite !Hnone by set_solver.
  - intros (t & Ht & [r Hr]).
    destruct (omap (fila yf) tickers) as [|r' df] eqn:Hdf; [|done].
    assert (r ∈ omap (fila yf) tickers) as Hin
      by (apply list_elem_of_omap; eauto).
    rewrite Hdf in Hin. by apply elem_of_nil in Hin.
Qed.

End ExtractorExtras.

(** ** The further statements at the small market *)

Lemma line_items_are_most_recent_cells_witness :
  ∃ out r,
    cuerpo mercado "NOE" = (out, Ok r) ∧
    Activo_Corriente r = Some (entero 300) ∧
    Utilidad_Neta r = None.
Proof.
  eexists _, _. split; [evaluar|].
  destruct (line_items_are_most_recent_cells mercado "NOE" _ _ stock_NOE
              (list_to_map balance_AAA) (list_to_map [])
              ltac:(evaluar) eq_refl eq_refl eq_refl)
    as (Hac & _ & _ & _ & Hun).
  split; [exact Hac|exact Hun].
Defined.

Lemma info_fields_of_record_witness :
  ∃ out r,
    cuerpo mercado "AAA" = (out, Ok r) ∧
    Capitalizacion_Bursatil r = Some (entero 5000) ∧
    Some (entero 25) = Some (PER r).
Proof.
  eexists _, _. split; [evaluar|].
  destruct (info_fields_of_record mercado "AAA" _ _ stock_AAA (list_to_map info_AAA)
              ltac:(evaluar) eq_refl eq_refl) as (Hcap & _ & Hper).
  split; [exact Hcap|exact Hper].
Defined.

Lemma completed_ticker_was_fully_read_witness :
  ∃ stock i,
    mercado "NOE" = Ok stock ∧ info stock = Ok i ∧ is_Some (i !! "trailingPE").
Proof.
  destruct (completed_ticker_was_fully_read mercado "NOE" ltac:(by vm_compute; eauto))
    as (stock & bs & divs & h1 & i & fin & Hyf & _ & _ & _ & Hi & _ & _ & _ & Hpe).
  by exists stock, i.
Defined.

Lemma ten_year_step_succeeds_iff_witness :
  ∃ out r,
    cuerpo mercado "NOE" = (out, Ok r) ∧
    PER_prom_x10 r = None ∧
    ¬ ∃ cierres un sh,
        history stock_NOE "10y" "1mo" = Ok cierres ∧ cierres ≠ [] ∧
        Utilidad_Neta r = Some un ∧
        (list_to_map info_AAA : Info) !! "sharesOutstanding" = Some sh ∧
        un ≠ cero ∧ sh ≠ cero.
Proof.
  eexists _, _. split; [evaluar|]. split; [reflexivity|].
  intros H.
  apply (ten_year_step_succeeds_iff mercado "NOE" _ _ stock_NOE (list_to_map info_AAA)
           ltac:(evaluar) eq_refl eq_refl) in H.
  by destruct H as [? [=]].
Defined.


Lemma aborted_ticker_is_logged_witness :
  iteracion mercado_extra [] "NN" =
    ([msg_per_promedio "NN"
        (TypeError "unsupported operand type(s) for /: 'float' and 'NoneType'");
      msg_procesar "NN" (KeyError "trailingPE")], Ok []).
Proof.
  exact (proj1 (aborted_ticker_is_logged mercado_extra "NN" _ _ []
                  ltac:(evaluar))).
Defined.

Lemma Qc_of_Z_no_cero (n : Z) : n ≠ 0 → Qc_of_Z n ≠ 0%Qc.
Proof. intros Hn [= H]. by apply Hn. Qed.

Lemma debt_to_equity_of_finite_figures_witness :
  ∃ out r,
    cuerpo mercado_extra "EQ" = (out, Ok r) ∧
    Capital_Contable r = Some cero ∧
    Deuda_a_Capital r = None.
Proof.
  eexists _, _. split; [evaluar|].
  eapply (proj1 (debt_to_equity_of_finite_figures mercado_extra "EQ" _ _
                   (Qc_of_Z 400) (Qc_of_Z 400) ltac:(evaluar) eq_refl eq_refl _ _)).
  reflexivity.
  Unshelve.
  - apply Qc_of_Z_no_cero. lia.
  - apply Qc_of_Z_no_cero. lia.
Defined.

Lemma no_dividends_no_yield_witness :
  ∃ out r,
    cuerpo mercado_extra "EQ" = (out, Ok r) ∧
    Dividendos_Anuales r = cero ∧
    Rendimiento_de_Dividendos r = None.
Proof.
  eexists _, _. split; [evaluar|].
  eapply (no_dividends_no_yield mercado_extra "EQ" _ _ stock_EQ
            [(2022, entero 1); (2024, entero 4)]).
  - evaluar.
  - reflexivity.
  - reflexivity.
  - reflexivity.
Defined.

Lemma nan_passes_the_guards_witness :
  ∃ out r,
    cuerpo mercado_extra "NAN" = (out, Ok r) ∧
    valor debt_to_assets r = Some NaN ∧
    Capital_Contable r = Some NaN.
Proof.
  eexists _, _. split; [evaluar|].
  destruct (nan_passes_the_guards mercado_extra "NAN" _ _ ltac:(evaluar))
    as [Hk Hcc].
  split.
  - apply (Hk debt_to_assets (entero 400) NaN); [reflexivity|reflexivity| |done|by right].
    apply entero_no_cero. lia.
  - apply (Hcc NaN (entero 400)); [reflexivity|reflexivity|done| |by left].
    apply entero_no_cero. lia.
Defined.

Lemma last_ten_calendar_years_witness :
  ultimos 10 (resample_YE_mean [(2020, entero 10); (2022, entero 30)]) =
    (λ a, mean_skipna (eventos_del_year a [(2020, entero 10); (2022, entero 30)]))
      <$> seqZ (Z.max 2020 (2022 - 9)) (Z.min 10 (2022 - 2020 + 1)).
Proof.
  apply (last_ten_calendar_years [(2020, entero 10); (2022, entero 30)] 2020 2022).
  - simpl. set_solver.
  - simpl. set_solver.
  - simpl. intros y Hy.
    apply elem_of_cons in Hy as [->|Hy]; [lia|].
    apply elem_of_cons in Hy as [->|Hy]; [lia|].
    by apply elem_of_nil in Hy.
Defined.

Lemma script_outcome_witness :
  (∃ msg, script mercado_vacio =
            (Linea <$> mjoin (salida mercado_vacio <$> tickers), Raise (KeyError msg))) ∧
  (script mercado_script).2 = Ok tt.
Proof.
  split.
  - apply (proj1 (script_outcome mercado_vacio)). intros t _. reflexivity.
  - rewrite (proj2 (script_outcome mercado_script)); [reflexivity|].
    exists "AMD". split; [unfold tickers; set_solver|]. by vm_compute; eauto.
Defined.
